(** * sumformer2: verification of [utils.py]

    A shallow embedding of the five functions of [utils.py]
    ([create_data_loader], [load_reddit], [split_data], [init_schedule],
    [batch_by_instances]) together with the parts of the Python run time and of the external
    libraries they call, and the properties stated about them.

    Conventions.
    - Python [int] is [Z]; Python [float] is the kernel's binary64 [float].
    - A Python call either returns or raises: [result A].
    - Code that draws random numbers threads the generator state: [M A].
    - Names that a function body reads from the module namespace are looked
      up in an explicit set of bound names ([utils_globals] is the one the
      import statements and the [def]s of [utils.py] create). *)

From Stdlib Require Import ZArith List Floats.
From stdpp Require Import base list gmap strings sorting pretty.

Set Warnings "-inexact-float".

Local Open Scope Z_scope.

(** ** Python run time *)

Inductive exn : Type :=
| NameError (name : string)
| ValueError (msg : string)
| RuntimeError (msg : string)
| IndexError (msg : string)
| KeyError (key : string)
| ZeroDivisionError (msg : string)
| OverflowError (msg : string)
| TypeError (msg : string).

Inductive result (A : Type) : Type :=
| Ok (a : A)
| Raise (e : exn).
Arguments Ok {A} a.
Arguments Raise {A} e.

Definition rbind {A B} (r : result A) (k : A -> result B) : result B :=
  match r with
  | Ok a => k a
  | Raise e => Raise e
  end.

Declare Scope py_scope.
Delimit Scope py_scope with py.
Notation "x <- r ;; k" := (rbind r (fun x => k))
  (at level 100, r at next level, right associativity) : py_scope.
Local Open Scope py_scope.

Definition returns {A} (r : result A) : Prop := exists a, r = Ok a.

Definition raises {A} (r : result A) : Prop := exists e, r = Raise e.

(** [[f(x) for x in l]] where [f] may raise: left to right, stopping at the
    first exception. *)
Fixpoint comprehension {A B} (f : A -> result B) (l : list A) : result (list B) :=
  match l with
  | [] => Ok []
  | x :: l' => y <- f x ;; ys <- comprehension f l' ;; Ok (y :: ys)
  end.

(** [for i in idxs: s = body(i, s)] *)
Fixpoint for_each {S} (body : Z -> S -> result S) (idxs : list Z) (s : S) : result S :=
  match idxs with
  | [] => Ok s
  | i :: rest => s' <- body i s ;; for_each body rest s'
  end.

Definition len {A} (l : list A) : Z := Z.of_nat (length l).

(** Number of elements of [range(start, stop, step)] for [step <> 0]. *)
Definition range_len (start stop step : Z) : nat :=
  if 0 <? step then Z.to_nat ((stop - start + step - 1) / step)
  else Z.to_nat ((start - stop - step - 1) / (- step)).

(** [range(start, stop, step)], materialised. *)
Definition py_range (start stop step : Z) : result (list Z) :=
  if step =? 0 then Raise (ValueError "range() arg 3 must not be zero")
  else Ok (map (fun k => start + Z.of_nat k * step) (seq 0 (range_len start stop step))).

(** A slice bound as [l[a:b]] reads it: negative bounds count from the end,
    and every bound is clipped to [0 .. len l]. *)
Definition slice_index (n i : Z) : Z :=
  if i <? 0 then Z.max (i + n) 0 else Z.min i n.

(** [l[start:stop]] *)
Definition py_slice {A} (start stop : Z) (l : list A) : list A :=
  let s := slice_index (len l) start in
  let e := slice_index (len l) stop in
  take (Z.to_nat (e - s)) (drop (Z.to_nat s) l).

(** [max(xs)] over integers *)
Definition py_max (xs : list Z) : result Z :=
  match xs with
  | [] => Raise (ValueError "max() arg is an empty sequence")
  | x :: xs' => Ok (fold_left Z.max xs' x)
  end.

(** [[x] * k]: the empty list when [k <= 0]. *)
Definition py_repeat {A} (x : A) (k : Z) : list A := replicate (Z.to_nat k) x.

(** Reading a global name inside a function body. *)
Definition load_global (globals : gset string) (name : string) : result unit :=
  if decide (name ∈ globals) then Ok tt else Raise (NameError name).

(** The names bound at module level in [utils.py]: lines 1-5 bind [math],
    [load_dataset], [concatenate_datasets], [lr_scheduler], [DataLoader],
    [SequentialSampler] and [BatchSampler]; the five [def]s bind the
    functions.  ([from torch.optim import lr_scheduler] binds
    [lr_scheduler] only.) *)
Definition utils_globals : gset string :=
  list_to_set
    ["math"; "load_dataset"; "concatenate_datasets"; "lr_scheduler";
     "DataLoader"; "SequentialSampler"; "BatchSampler";
     "create_data_loader"; "load_reddit"; "split_data"; "init_schedule";
     "batch_by_instances"]%string.

(** ** torch tensors of 64-bit integers *)

Definition device := string.

Record tensor1 : Type := Tensor1 { device1 : device; data1 : list Z }.

Record tensor2 : Type := Tensor2 { device2 : device; data2 : list (list Z) }.

Definition in_int64 (z : Z) : bool := (- 2 ^ 63 <=? z) && (z <? 2 ^ 63).

(** [torch.LongTensor(l)] for a list of Python integers. *)
Definition LongTensor (l : list Z) : result tensor1 :=
  if forallb in_int64 l then Ok (Tensor1 "cpu" l)
  else Raise (RuntimeError "Overflow when unpacking long").

(** [t.to(device)]: the tensor on [device].  Whether the running process
    has that device is not followed: a result for a device other than
    ["cpu"] is a result for a process that has it. *)
Definition to (t : tensor1) (d : device) : tensor1 := Tensor1 d (data1 t).

(** [torch.stack(ts)] of one-dimensional tensors along a new first axis. *)
Definition stack (ts : list tensor1) : result tensor2 :=
  match ts with
  | [] => Raise (RuntimeError "stack expects a non-empty TensorList")
  | t :: _ =>
      if forallb (fun u => length (data1 u) =? length (data1 t))%nat ts
      then Ok (Tensor2 (device1 t) (map data1 ts))
      else Raise (RuntimeError "stack expects each tensor to be equal size")
  end.

(** ** [batch_by_instances] *)

(** Lines 95-109: one iteration of the loop, on the accumulators
    [(batches_x, batches_y)]. *)
Definition batch_body (globals : gset string) (dev : device)
    (sequences : list (list Z)) (labels : list Z) (batch_size pad_token : Z)
    (i : Z) (acc : list tensor2 * list tensor1) : result (list tensor2 * list tensor1) :=
  let batch_x := py_slice i (i + batch_size) sequences in
  let batch_y := py_slice i (i + batch_size) labels in
  max_len <- py_max (map len batch_x) ;;
  _ <- load_global globals "torch" ;;
  padded <- comprehension
              (fun seq => t <- LongTensor (seq ++ py_repeat pad_token (max_len - len seq)) ;;
                          Ok (to t dev))
              batch_x ;;
  padded_tensor_batch_x <- stack padded ;;
  t <- LongTensor batch_y ;;
  let tensor_batch_y := to t dev in
  Ok (fst acc ++ [padded_tensor_batch_x], snd acc ++ [tensor_batch_y]).

Definition batch_by_instances (globals : gset string) (dev : device)
    (sequences : list (list Z)) (labels : list Z) (batch_size pad_token : Z)
    : result (list tensor2 * list tensor1) :=
  idxs <- py_range 0 (len sequences) batch_size ;;
  for_each (batch_body globals dev sequences labels batch_size pad_token) idxs ([], []).

(** The module with [torch] bound as well, which is what the body of
    [batch_by_instances] expects to find. *)
Definition globals_with_torch : gset string := {["torch"%string]} ∪ utils_globals.

(** ** Python floats *)

(** [float(z)] for an integer [z]: the nearest binary64 number, and
    [OverflowError] when [z] is beyond the range of the finite ones. *)
Definition float_of_int (z : Z) : result float :=
  let f := SF2Prim (binary_normalize prec emax z 0 false) in
  if is_infinity f then Raise (OverflowError "int too large to convert to float")
  else Ok f.

(** [a / b] on floats *)
Definition py_div (a b : float) : result float :=
  if is_zero b then Raise (ZeroDivisionError "float division by zero")
  else Ok (a / b)%float.

(** [math.ceil(x)] *)
Definition py_ceil (x : float) : result Z :=
  match Prim2SF x with
  | S754_nan => Raise (ValueError "cannot convert float NaN to integer")
  | S754_infinity _ => Raise (OverflowError "cannot convert float infinity to integer")
  | S754_zero _ => Ok 0
  | S754_finite s m e =>
      let v := if s then Z.neg m else Z.pos m in
      Ok (if 0 <=? e then v * 2 ^ e else - ((- v) / 2 ^ (- e)))
  end.

(** ** The [datasets] library

    A [Dataset] is its table, a list of rows; a [DatasetDict] maps split
    names to datasets.  The operations below are the library's, for the
    arguments [utils.py] passes and the defaults it leaves. *)

(** [ds.select(indices)] *)
Definition select {A} (indices : list nat) (ds : list A) : result (list A) :=
  comprehension
    (fun i => match ds !! i with
              | Some x => Ok x
              | None => Raise (IndexError "index out of range")
              end)
    indices.

(** [ds.flatten_indices()]: the same rows, stored contiguously. *)
Definition flatten_indices {A} (ds : list A) : list A := ds.

(** Row [x] comes no later than row [y] in the order of an integer column. *)
Definition column_le {A} (column : A -> Z) (x y : A) : Prop := column x <= column y.

#[global] Instance column_le_dec {A} (column : A -> Z) (x y : A) :
  Decision (column_le column x y) := Z_le_dec (column x) (column y).

(** [ds.sort(column)], ascending, for an integer column. *)
Definition sort {A} (column : A -> Z) (ds : list A) : list A :=
  merge_sort (column_le column) ds.

(** [dd[split]] *)
Definition getitem {A} (dd : gmap string (list A)) (split : string) : result (list A) :=
  match dd !! split with
  | Some ds => Ok ds
  | None => Raise (KeyError split)
  end.

Section Datasets.

(** The state of numpy's random generator, and [generator.permutation(n)],
    which returns the numbers [0 .. n-1] in some order. *)
Variable rng : Type.
Variable permutation : nat -> rng -> list nat * rng.

(** Computations that draw random numbers and may raise. *)
Definition M (A : Type) : Type := rng -> result (A * rng).

Definition ret {A} (a : A) : M A := fun g => Ok (a, g).

Definition bind {A B} (c : M A) (k : A -> M B) : M B :=
  fun g => match c g with
           | Ok (a, g') => k a g'
           | Raise e => Raise e
           end.

Definition lift {A} (r : result A) : M A :=
  fun g => match r with
           | Ok a => Ok (a, g)
           | Raise e => Raise e
           end.

Definition draw_permutation (n : nat) : M (list nat) :=
  fun g => Ok (permutation n g).

Notation "x <~ c ;; k" := (bind c (fun x => k))
  (at level 100, c at next level, right associativity).

(** [ds.shuffle()]: an empty dataset is returned as it is. *)
Definition shuffle {A} (ds : list A) : M (list A) :=
  if (length ds =? 0)%nat then ret ds
  else
    perm <~ draw_permutation (length ds) ;;
    lift (select perm ds).

(** [ds.train_test_split(test_size=test_size)] for a float [test_size];
    the result is the pair [(d['train'], d['test'])]. *)
Definition train_test_split {A} (ds : list A) (test_size : float)
    : M (list A * list A) :=
  if (length ds =? 0)%nat then ret (ds, ds)
  else
    let n_samples := len ds in
    if (test_size <=? 0)%float || (1 <=? test_size)%float
    then lift (Raise (ValueError "test_size should be a float in the (0, 1) range"))
    else
      n <~ lift (float_of_int n_samples) ;;
      n_test <~ lift (py_ceil (test_size * n)%float) ;;
      let n_train := n_samples - n_test in
      if n_samples <? n_train + n_test
      then lift (Raise (ValueError "the sum of train_size and test_size exceeds the number of samples"))
      else if n_train =? 0
      then lift (Raise (ValueError "the resulting train set will be empty"))
      else
        perm <~ draw_permutation (length ds) ;;
        let test_indices := py_slice 0 n_test perm in
        let train_indices := py_slice n_test (n_test + n_train) perm in
        train_split <~ lift (select train_indices ds) ;;
        test_split <~ lift (select test_indices ds) ;;
        ret (train_split, test_split).

(** ** [split_data] *)

Definition split_data {A} (dataset : list A) (train_split val_split : float)
    : M (list A * list A * list A) :=
  dataset <~ shuffle dataset ;;
  let dataset := flatten_indices dataset in
  dataset <~ train_test_split dataset (1 - train_split)%float ;;
  let train_dataset := fst dataset in
  q <~ lift (py_div val_split (1 - train_split)%float) ;;
  test_dataset <~ train_test_split (snd dataset) (1 - q)%float ;;
  let val_dataset := fst test_dataset in
  let test_dataset := snd test_dataset in
  ret (train_dataset, val_dataset, test_dataset).

End Datasets.

Arguments ret {rng A} a _.
Arguments lift {rng A} r _.
Arguments bind {rng A B} c k _.
Arguments draw_permutation {rng} permutation n _.

Notation "x <~ c ;; k" := (bind c (fun x => k))
  (at level 100, c at next level, right associativity) : py_scope.

(** ** [load_reddit] *)

(** A row of the [reddit_tifu] table as the hub serves it. *)
Record raw_row : Type := {
  ups : float;
  num_comments : float;
  upvote_ratio : float;
  score : float;
  documents : string;
  tldr : string;
  title : string
}.

(** A row after [remove_columns] and [rename_columns]. *)
Record instance : Type := { document : string; summary : string }.

(** A row after the [map] of line 33 has added the [doc_len] column. *)
Record instance_len : Type := { fields :> instance; doc_len : Z }.

(** Lines 17-18: the short configuration keeps [documents] and [title]. *)
Definition short_columns (r : raw_row) : instance :=
  {| document := documents r; summary := title r |}.

(** Lines 21-22: the long configuration keeps [documents] and [tldr]. *)
Definition long_columns (r : raw_row) : instance :=
  {| document := documents r; summary := tldr r |}.

(** [len(s)] of a string *)
Definition str_len (s : string) : Z := Z.of_nat (String.length s).

(** Lines 27-30: the predicate given to [filter]. *)
Definition long_enough (min_len : Z) (x : instance) : bool :=
  (min_len <? str_len (document x))
  && (min_len <? str_len (summary x))
  && (str_len (summary x) <? str_len (document x)).

(** Line 33: the function given to [map]. *)
Definition add_doc_len (x : instance) : instance_len :=
  {| fields := x; doc_len := str_len (document x) |}.

(** [concatenate_datasets(dsets)] *)
Definition concatenate_datasets {A} (dsets : list (list A)) : list A := concat dsets.

Section Reddit.

Variable rng : Type.
Variable permutation : nat -> rng -> list nat * rng.

(** [load_dataset(path, name)]: what the hub holds under that name. *)
Variable load_dataset : string -> string -> result (gmap string (list raw_row)).

Definition load_reddit (train_split val_split : float) (min_len : Z)
    : M rng (list instance_len * list instance_len * list instance_len) :=
  dataset_short <~ lift (load_dataset "reddit_tifu" "short") ;;
  let dataset_short := map short_columns <$> dataset_short in
  dataset_long <~ lift (load_dataset "reddit_tifu" "long") ;;
  let dataset_long := map long_columns <$> dataset_long in
  short_train <~ lift (getitem dataset_short "train") ;;
  long_train <~ lift (getitem dataset_long "train") ;;
  let dataset := concatenate_datasets [short_train; long_train] in
  let dataset := List.filter (long_enough min_len) dataset in
  let dataset := map add_doc_len dataset in
  parts <~ split_data rng permutation dataset train_split val_split ;;
  let '(train_dataset, val_dataset, test_dataset) := parts in
  let train_dataset := sort doc_len train_dataset in
  let val_dataset := sort doc_len val_dataset in
  let test_dataset := sort doc_len test_dataset in
  ret (train_dataset, val_dataset, test_dataset).

End Reddit.

(** ** [init_schedule] *)

(** A Python number: what a learning-rate multiplier returns.  The value of
    a complex number is not followed. *)
Inductive num : Type :=
| Int (z : Z)
| Float (f : float)
| Complex.

(** The value of [x ** y] on floats: a float, or a complex number. *)
Inductive power : Type :=
| Real (f : float)
| NonReal.

(** [min(a, b)] on floats *)
Definition py_min (a b : float) : float := if (b <? a)%float then b else a.

(** What the schedulers look at in a torch optimizer: whether ['momentum']
    or ['betas'] is a key of [optimizer.defaults]. *)
Class Optimizer (optimizer : Type) : Type := {
  momentum_or_betas : optimizer -> bool
}.

Section Schedulers.

(** The optimizer is passed through to the scheduler. *)
Variable optimizer : Type.

(** The [pow] of the C library on a positive finite base; [Raise] stands
    for a range error.  It is no primitive of binary64 arithmetic. *)
Variable float_pow : float -> float -> result float.

(** The objects of the classes of [torch.optim.lr_scheduler] that
    [init_schedule] instantiates, each with the arguments it was built
    from. *)
Inductive scheduler : Type :=
| LambdaLR (opt : optimizer) (lr_lambda : Z -> result num)
| CosineAnnealingWarmRestarts (opt : optimizer) (T_0 T_mult : Z) (eta_min : float)
    (last_epoch : Z)
| LinearLR (opt : optimizer) (start_factor end_factor : float) (total_iters : Z)
| OneCycleLR (opt : optimizer) (max_lr : float) (total_steps : Z) (pct_start : float)
    (anneal_strategy : string).

Context `{Optimizer optimizer}.

(** [LambdaLR(optimizer, lr_lambda)]: the constructor takes the first step
    of the schedule, which calls [lr_lambda(0)]. *)
Definition LambdaLR_init (opt : optimizer) (lr_lambda : Z -> result num)
    : result scheduler :=
  _ <- lr_lambda 0 ;;
  Ok (LambdaLR opt lr_lambda).

(** [CosineAnnealingWarmRestarts(optimizer, T_0, T_mult, eta_min, last_epoch)] *)
Definition CosineAnnealingWarmRestarts_init (opt : optimizer) (T_0 T_mult : Z)
    (eta_min : float) (last_epoch : Z) : result scheduler :=
  if T_0 <=? 0 then
    Raise (ValueError ("Expected positive integer T_0, but got " +:+ pretty T_0))
  else if T_mult <? 1 then
    Raise (ValueError ("Expected integer T_mult >= 1, but got " +:+ pretty T_mult))
  else Ok (CosineAnnealingWarmRestarts opt T_0 T_mult eta_min last_epoch).

(** [LinearLR(optimizer, start_factor, end_factor, total_iters)] *)
Definition LinearLR_init (opt : optimizer) (start_factor end_factor : float)
    (total_iters : Z) : result scheduler :=
  if (1 <? start_factor)%float || (start_factor <=? 0)%float then
    Raise (ValueError
      "Starting multiplicative factor expected to be greater than 0 and less or equal to 1.")
  else if (1 <? end_factor)%float || (end_factor <? 0)%float then
    Raise (ValueError "Ending multiplicative factor expected to be between 0 and 1.")
  else Ok (LinearLR opt start_factor end_factor total_iters).

(** [OneCycleLR(optimizer, max_lr, total_steps, pct_start, anneal_strategy)],
    with [cycle_momentum] left at [True]: the steps of the first phase are
    [float(pct_start * total_steps) - 1]. *)
Definition OneCycleLR_init (opt : optimizer) (max_lr : float) (total_steps : Z)
    (pct_start : float) (anneal_strategy : string) : result scheduler :=
  if total_steps <=? 0 then
    Raise (ValueError
      ("Expected positive integer total_steps, but got " +:+ pretty total_steps))
  else
    _ <- float_of_int total_steps ;;
    if (pct_start <? 0)%float || (1 <? pct_start)%float then
      Raise (ValueError "Expected float between 0 and 1 pct_start")
    else if negb ((anneal_strategy =? "cos")%string || (anneal_strategy =? "linear")%string)
    then Raise (ValueError "anneal_strategy must be one of 'cos' or 'linear'")
    else if negb (momentum_or_betas opt) then
      Raise (ValueError
        "optimizer must support momentum or beta1 with `cycle_momentum` option enabled")
    else Ok (OneCycleLR opt max_lr total_steps pct_start anneal_strategy).

(** [x ** y] on floats, for an exponent [y] that is finite, negative and no
    integer, as the two of line 73 are. *)
Definition py_pow (x y : float) : result power :=
  if is_nan x then Ok (Real x)
  else if is_infinity x then Ok (Real 0)
  else if is_zero x then
    Raise (ZeroDivisionError "0.0 cannot be raised to a negative power")
  else if (x <? 0)%float then Ok NonReal
  else if (x =? 1)%float then Ok (Real 1)
  else match float_pow x y with
       | Ok z => Ok (Real z)
       | Raise _ => Raise (OverflowError "(34, 'Numerical result out of range')")
       end.

(** [base ** y] for an integer [base] and a float [y] *)
Definition int_pow (base : Z) (y : float) : result power :=
  x <- float_of_int base ;; py_pow x y.

(** [c * w] for a float [c] *)
Definition scale (c : float) (w : power) : power :=
  match w with
  | Real x => Real (c * x)
  | NonReal => NonReal
  end.

(** [min(a, b)]: complex numbers are not ordered. *)
Definition min_power (a b : power) : result float :=
  match a, b with
  | Real x, Real y => Ok (py_min x y)
  | _, _ =>
      Raise (TypeError "'<' not supported between instances of 'complex' and 'float'")
  end.

(** [e * m] for a float [m] *)
Definition times (e : power) (m : float) : num :=
  match e with
  | Real x => Float (x * m)
  | NonReal => Complex
  end.

(** Line 62: [lambda _: 1] *)
Definition lambda_constant (_ : Z) : result num := Ok (Int 1).

(** Line 66: [lambda epoch: 1/math.sqrt(epoch) if epoch > 0 else 1] *)
Definition lambda_invsqrt (epoch : Z) : result num :=
  if 0 <? epoch
  then x <- float_of_int epoch ;; q <- py_div 1 (sqrt x) ;; Ok (Float q)
  else Ok (Int 1).

(** Line 73 *)
Definition lambda_noam (emb_dim : Z) (warmup_steps : float) (current_step : Z)
    : result num :=
  e <- int_pow emb_dim (-0.5) ;;
  a <- int_pow (current_step + 1) (-0.5) ;;
  w <- py_pow warmup_steps (-1.5) ;;
  c <- float_of_int (current_step + 1) ;;
  m <- min_power a (scale c w) ;;
  Ok (times e m).

Definition init_schedule {B} (opt : optimizer) (sched : string)
    (train_loader : list B) (lr : float) (epochs emb_dim : Z) : result scheduler :=
  if (sched =? "constant")%string || (sched =? "none")%string then
    LambdaLR_init opt lambda_constant
  else if (sched =? "cosineannealing")%string then
    CosineAnnealingWarmRestarts_init opt 10 1 0.0 (-1)
  else if (sched =? "invsqrt")%string then
    LambdaLR_init opt lambda_invsqrt
  else if (sched =? "linear")%string then
    LinearLR_init opt (lr / 5) lr (len train_loader * epochs)
  else if (sched =? "onecycle")%string then
    OneCycleLR_init opt lr (len train_loader * epochs) 0.3 "linear"
  else if (sched =? "noam")%string then
    n <- float_of_int (len train_loader) ;;
    ep <- float_of_int epochs ;;
    let warmup_steps := (0.3 * n * ep)%float in
    LambdaLR_init opt (lambda_noam emb_dim warmup_steps)
  else
    Raise (ValueError "Invalid scheduler option provided.").

End Schedulers.

Arguments LambdaLR {optimizer} opt lr_lambda.
Arguments CosineAnnealingWarmRestarts {optimizer} opt T_0 T_mult eta_min last_epoch.
Arguments LinearLR {optimizer} opt start_factor end_factor total_iters.
Arguments OneCycleLR {optimizer} opt max_lr total_steps pct_start anneal_strategy.
Arguments LambdaLR_init {optimizer} opt lr_lambda.
Arguments CosineAnnealingWarmRestarts_init {optimizer} opt T_0 T_mult eta_min last_epoch.
Arguments LinearLR_init {optimizer} opt start_factor end_factor total_iters.
Arguments OneCycleLR_init {optimizer _} opt max_lr total_steps pct_start anneal_strategy.
Arguments init_schedule {optimizer} float_pow {_ B} opt sched train_loader lr epochs emb_dim.

(** The scheduler names that [init_schedule] compares [sched] with. *)
Definition recognized : list string :=
  ["constant"; "none"; "cosineannealing"; "invsqrt"; "linear"; "onecycle"; "noam"]%string.

(** ** [torch.utils.data] and [create_data_loader] *)

(** [SequentialSampler(data_source)]: iterating it gives the indices
    [0 .. len(data_source) - 1] in order. *)
Definition SequentialSampler {A} (data_source : list A) : list nat :=
  seq 0 (length data_source).

Record batch_sampler : Type := {
  bs_sampler : list nat;
  bs_batch_size : Z;
  bs_drop_last : bool
}.

(** [BatchSampler(sampler, batch_size, drop_last)] *)
Definition BatchSampler (sampler : list nat) (batch_size : Z) (drop_last : bool)
    : result batch_sampler :=
  if batch_size <=? 0
  then Raise (ValueError
         ("batch_size should be a positive integer value, but got batch_size="
          +:+ pretty batch_size))
  else Ok {| bs_sampler := sampler; bs_batch_size := batch_size;
             bs_drop_last := drop_last |}.

(** [sys.maxsize] on a 64-bit build: the largest count that
    [itertools.islice] and list repetition take. *)
Definition sys_maxsize : Z := 2 ^ 63 - 1.

(** One turn of the loop of [BatchSampler.__iter__], on the batches yielded
    so far and the batch being filled. *)
Definition batch_step (batch_size : Z) (st : list (list nat) * list nat) (idx : nat)
    : list (list nat) * list nat :=
  let batch := snd st ++ [idx] in
  if len batch =? batch_size then (fst st ++ [batch], []) else (fst st, batch).

(** [list(batch_sampler)].  Each batch is read from the sampler with a
    count of [batch_size], which must not exceed [sys.maxsize]. *)
Definition batch_sampler_iter (bs : batch_sampler) : result (list (list nat)) :=
  if sys_maxsize <? bs_batch_size bs then
    Raise (if bs_drop_last bs
           then OverflowError "cannot fit 'int' into an index-sized integer"
           else ValueError
                  "Stop argument for islice() must be None or an integer: 0 <= x <= sys.maxsize.")
  else
    let st := fold_left (batch_step (bs_batch_size bs)) (bs_sampler bs) ([], []) in
    Ok (if (0 <? len (snd st)) && negb (bs_drop_last bs)
        then fst st ++ [snd st] else fst st).

(** [len(batch_sampler)] *)
Definition batch_sampler_len (bs : batch_sampler) : Z :=
  if bs_drop_last bs then len (bs_sampler bs) / bs_batch_size bs
  else (len (bs_sampler bs) + bs_batch_size bs - 1) / bs_batch_size bs.

(** A [DataLoader] over a map-style dataset, built with [batch_sampler=]
    and [collate_fn=]. *)
Record data_loader (A B : Type) : Type := DataLoader {
  dl_dataset : list A;
  dl_batch_sampler : batch_sampler;
  dl_collate_fn : list A -> result B
}.
Arguments DataLoader {A B} dl_dataset dl_batch_sampler dl_collate_fn.
Arguments dl_dataset {A B} d.
Arguments dl_batch_sampler {A B} d.
Arguments dl_collate_fn {A B} d.

(** [[dataset[idx] for idx in indices]] *)
Definition fetch {A} (dataset : list A) (indices : list nat) : result (list A) :=
  comprehension
    (fun idx => match dataset !! idx with
                | Some x => Ok x
                | None => Raise (IndexError "list index out of range")
                end)
    indices.

(** [len(loader)] *)
Definition loader_len {A B} (loader : data_loader A B) : Z :=
  batch_sampler_len (dl_batch_sampler loader).

(** [list(loader)]: each batch of indices is fetched and collated. *)
Definition loader_iter {A B} (loader : data_loader A B) : result (list B) :=
  batches <- batch_sampler_iter (dl_batch_sampler loader) ;;
  comprehension
    (fun indices => data <- fetch (dl_dataset loader) indices ;;
                    dl_collate_fn loader data)
    batches.

(** Lines 8-11. *)
Definition create_data_loader {A B} (dataset : list A) (batch_size : Z)
    (collate_fn : list A -> result B) : result (data_loader A B) :=
  let sampler := SequentialSampler dataset in
  batch_sampler <- BatchSampler sampler batch_size false ;;
  Ok (DataLoader dataset batch_sampler collate_fn).

(** * Vocabulary of the properties *)

(** ** Results *)

Definition result_map {A B} (f : A -> B) (r : result A) : result B :=
  match r with
  | Ok a => Ok (f a)
  | Raise e => Raise e
  end.

(** The error of line 75. *)
Definition invalid_option : exn := ValueError "Invalid scheduler option provided.".

(** The error of [float_of_int]. *)
Definition int_overflow : exn := OverflowError "int too large to convert to float".

(** ** Datasets *)

(** The rows of [ds] at the positions [indices], in that order. *)
Definition rows_at {A} (ds : list A) (indices : list nat) : list A :=
  omap (fun i => ds !! i) indices.

(** A dataset with each row tagged by its position. *)
Definition tagged {A} (ds : list A) : list (nat * A) := zip (seq 0 (length ds)) ds.

(** Lines 28-29 of the filter. *)
Definition passes_threshold (min_len : Z) (x : instance) : Prop :=
  min_len < str_len (document x) /\ min_len < str_len (summary x).

(** The exceptions that [split_data] can end in. *)
Definition split_error (e : exn) : Prop :=
  (exists msg, e = ValueError msg)
  \/ (exists msg, e = OverflowError msg)
  \/ (exists msg, e = ZeroDivisionError msg).

(** ** Batches *)

(** [seq + [pad_token] * (max_len - len(seq))] *)
Definition pad_to (max_len pad_token : Z) (seq : list Z) : list Z :=
  seq ++ py_repeat pad_token (max_len - len seq).

(** The largest length in a batch ([0] for the empty batch, where Python's
    [max] raises). *)
Definition batch_max_len (batch_x : list (list Z)) : Z :=
  match py_max (map len batch_x) with
  | Ok m => m
  | Raise _ => 0
  end.

(** The tensors that the iteration at index [i] appends (lines 102-109). *)
Definition expected_x (dev : device) (sequences : list (list Z))
    (batch_size pad_token : Z) (i : Z) : tensor2 :=
  let batch_x := py_slice i (i + batch_size) sequences in
  Tensor2 dev (map (pad_to (batch_max_len batch_x) pad_token) batch_x).

Definition expected_y (dev : device) (labels : list Z) (batch_size : Z) (i : Z)
    : tensor1 :=
  Tensor1 dev (py_slice i (i + batch_size) labels).

(** [ceil(n / b)] for [b > 0] *)
Definition ceil_div (n b : Z) : Z := (n + b - 1) / b.

(** ** Schedulers *)

(** The optimizer a scheduler was built on. *)
Definition scheduler_optimizer {optimizer : Type} (s : scheduler optimizer) : optimizer :=
  match s with
  | LambdaLR opt _ => opt
  | CosineAnnealingWarmRestarts opt _ _ _ _ => opt
  | LinearLR opt _ _ _ => opt
  | OneCycleLR opt _ _ _ _ => opt
  end.

(** The exceptions that the multiplier of line 73 can end in. *)
Definition lambda_error (e : exn) : Prop :=
  (exists msg, e = ZeroDivisionError msg)
  \/ (exists msg, e = OverflowError msg)
  \/ (exists msg, e = TypeError msg).

(** [lr / 5] lies in (0, 1] and [lr] in [0, 1]: what [LinearLR] asks of the
    factors that line 68 hands it. *)
Definition linear_factors_ok (lr : float) : bool :=
  negb ((1 <? lr / 5)%float || (lr / 5 <=? 0)%float)
  && negb ((1 <? lr)%float || (lr <? 0)%float).

(** The names whose scheduler is built from [sched] alone. *)
Definition fixed_schedules : list string :=
  ["constant"; "none"; "cosineannealing"; "invsqrt"]%string.

(** ** Data loaders *)

(** The [k]-th run of [b] elements of [l]. *)
Definition chunk {A} (b : nat) (l : list A) (k : nat) : list A :=
  take b (drop (k * b) l).

(** [l] cut into runs of [b] elements, the last one possibly shorter. *)
Definition chunks {A} (b : Z) (l : list A) : list (list A) :=
  map (chunk (Z.to_nat b) l) (seq 0 (Z.to_nat (ceil_div (len l) b))).

(** ** Inputs to run the code on *)

(** A generator whose state counts the draws: the [g]-th draw gives the
    numbers below [n] rotated by [g]. *)
Definition rotating (n : nat) (g : nat) : list nat * nat := (rotate g (seq 0 n), S g).

(** Two optimizers: [SGD] keeps a momentum among its defaults, [Adagrad]
    keeps neither a momentum nor betas. *)
Inductive example_optimizer : Type := SGD | Adagrad.

#[global] Instance example_optimizer_info : Optimizer example_optimizer :=
  {| momentum_or_betas o := match o with SGD => true | Adagrad => false end |}.

(** A power function: exact enough for the two exponents that line 73
    uses. *)
Definition example_pow (x y : float) : result float :=
  if is_zero x then Raise (ZeroDivisionError "0.0 cannot be raised to a negative power")
  else if (y =? -0.5)%float then py_div 1 (sqrt x)
  else if (y =? -1.5)%float then py_div 1 (x * sqrt x)
  else Raise (ValueError "exponent not supported").

Definition example_row (doc sum : string) : raw_row :=
  {| ups := 1; num_comments := 0; upvote_ratio := 0.5; score := 1;
     documents := doc; tldr := sum; title := sum |}.

(** A hub with eight rows, five of which pass the filter at [min_len = 3]. *)
Definition example_hub (path name : string) : result (gmap string (list raw_row)) :=
  if (path =? "reddit_tifu")%string && (name =? "short")%string then
    Ok {[ "train"%string :=
            [example_row "today i forgot" "oops";
             example_row "hi" "hi";
             example_row "today i broke the build" "build";
             example_row "short" "too long a summary"] ]}
  else if (path =? "reddit_tifu")%string && (name =? "long")%string then
    Ok {[ "train"%string :=
            [example_row "a long story about a very bad day" "bad day";
             example_row "i deleted the database" "no backups";
             example_row "today i overslept" "late";
             example_row "tiny" "x"] ]}
  else Raise (ValueError "dataset not found").

Definition example_train : list instance_len :=
  [ {| fields := {| document := "today i forgot"; summary := "oops" |}; doc_len := 14 |};
    {| fields := {| document := "today i overslept"; summary := "late" |}; doc_len := 17 |} ].

Definition example_val : list instance_len :=
  [ {| fields := {| document := "a long story about a very bad day"; summary := "bad day" |};
       doc_len := 33 |} ].

Definition example_test : list instance_len :=
  [ {| fields := {| document := "i deleted the database"; summary := "no backups" |};
       doc_len := 22 |};
    {| fields := {| document := "today i broke the build"; summary := "build" |};
       doc_len := 23 |} ].

(** * Properties *)

(** ** The monads *)

Lemma rbind_Ok {A B} (r : result A) (k : A -> result B) (b : B) :
  rbind r k = Ok b <-> exists a, r = Ok a /\ k a = Ok b.
Proof.
  destruct r as [a|e]; simpl; split.
  - intros H. exists a. auto.
  - intros (a' & Ha & H). congruence.
  - discriminate.
  - intros (a' & Ha & _). discriminate.
Qed.

Lemma bind_Ok {rng A B} (c : M rng A) (k : A -> M rng B) g b g' :
  bind c k g = Ok (b, g') <-> exists a g1, c g = Ok (a, g1) /\ k a g1 = Ok (b, g').
Proof.
  unfold bind. destruct (c g) as [[a g1]|e]; split.
  - intros H. exists a, g1. auto.
  - intros (a' & g1' & Ha & H). congruence.
  - discriminate.
  - intros (a' & g1' & Ha & _). discriminate.
Qed.

Lemma lift_Ok {rng A} (r : result A) (g : rng) a g' :
  lift r g = Ok (a, g') <-> r = Ok a /\ g' = g.
Proof.
  unfold lift. destruct r; split; intros H; try discriminate.
  - inversion H. auto.
  - destruct H as [H ->]. congruence.
  - destruct H. discriminate.
Qed.

Lemma ret_Ok {rng A} (x : A) (g : rng) a g' :
  ret x g = Ok (a, g') <-> a = x /\ g' = g.
Proof. unfold ret. split; intros H; [inversion H | destruct H; subst]; auto. Qed.

(** Peel the binds of a computation that is known to return. *)
Ltac inv_M H :=
  repeat match type of H with
  | bind _ _ _ = Ok (_, _) =>
      let a := fresh "a" in let g := fresh "g" in
      let H1 := fresh "H" in
      apply bind_Ok in H; destruct H as (a & g & H1 & H)
  end.

(** ** Lists *)

Lemma comprehension_Ok {A B} (f : A -> result B) (l : list A) (ys : list B) :
  comprehension f l = Ok ys <-> Forall2 (fun x y => f x = Ok y) l ys.
Proof.
  revert ys. induction l as [|x l IH]; intros ys; simpl.
  - split; intros H; [inversion H | inversion H]; subst; auto.
  - rewrite rbind_Ok. split.
    + intros (y & Hy & H). apply rbind_Ok in H. destruct H as (ys' & Hys & H).
      inversion H; subst. constructor; [assumption | by apply IH].
    + intros H. inversion H as [|? y ? ys' Hy Hys]; subst.
      exists y. split; [assumption|]. apply rbind_Ok. exists ys'.
      split; [by apply IH | reflexivity].
Qed.

Lemma slice_index_range (n i : Z) : 0 <= n -> 0 <= slice_index n i <= n.
Proof. unfold slice_index. destruct (Z.ltb_spec i 0); lia. Qed.

(** [l[:k] + l[k:len(l)]] is [l], whatever the integer [k]. *)
Lemma py_slice_split {A} (l : list A) (k : Z) :
  py_slice 0 k l ++ py_slice k (len l) l = l.
Proof.
  unfold py_slice.
  assert (Hn : 0 <= len l) by (unfold len; lia).
  pose proof (slice_index_range (len l) k Hn) as Hk.
  replace (slice_index (len l) 0) with 0
    by (unfold slice_index; simpl; lia).
  replace (slice_index (len l) (len l)) with (len l)
    by (unfold slice_index; destruct (Z.ltb_spec (len l) 0); lia).
  rewrite Z.sub_0_r. change (Z.to_nat 0) with 0%nat. rewrite drop_0.
  set (m := Z.to_nat (slice_index (len l) k)).
  rewrite (take_ge (drop m l)).
  - apply take_drop.
  - rewrite length_drop. unfold len in *. lia.
Qed.

(** ** [select] *)

Lemma select_Ok {A} (indices : list nat) (ds l : list A) :
  select indices ds = Ok l <-> Forall2 (fun i x => ds !! i = Some x) indices l.
Proof.
  unfold select. rewrite comprehension_Ok.
  split; intros H; (eapply Forall2_impl; [exact H|]); simpl; intros i x.
  - destruct (ds !! i); congruence.
  - intros ->. reflexivity.
Qed.

Lemma select_omap {A} (indices : list nat) (ds l : list A) :
  select indices ds = Ok l -> l = omap (fun i => ds !! i) indices.
Proof.
  rewrite select_Ok. induction 1 as [|i x idx l Hi _ IH]; simpl.
  - reflexivity.
  - rewrite Hi. simpl. by f_equal.
Qed.

Lemma omap_lookup_seq {A} (l1 l2 : list A) :
  omap (fun i => (l1 ++ l2) !! i) (seq (length l1) (length l2)) = l2.
Proof.
  revert l1. induction l2 as [|x l2 IH]; intros l1; simpl.
  - reflexivity.
  - rewrite list_lookup_middle by reflexivity. simpl. f_equal.
    specialize (IH (l1 ++ [x])).
    rewrite <- app_assoc, length_app in IH. simpl in IH.
    replace (length l1 + 1)%nat with (S (length l1)) in IH by lia.
    exact IH.
Qed.

(** Selecting every index once gives the rows back, in the order of the
    indices. *)
Lemma select_Permutation {A} (indices : list nat) (ds l : list A) :
  indices ≡ₚ seq 0 (length ds) -> select indices ds = Ok l -> l ≡ₚ ds.
Proof.
  intros Hp Hs. apply select_omap in Hs. subst l.
  rewrite Hp. pose proof (omap_lookup_seq [] ds) as H. simpl in H. by rewrite H.
Qed.

(** Every selected row is a row of the dataset. *)
Lemma select_subseteq {A} (indices : list nat) (ds l : list A) :
  select indices ds = Ok l -> l ⊆ ds.
Proof.
  intros Hs x Hx. apply select_omap in Hs. subst l.
  apply list_elem_of_omap in Hx. destruct Hx as (i & _ & Hi).
  eapply list_elem_of_lookup_2; eauto.
Qed.

(** ** [shuffle], [train_test_split] and [split_data] *)

Section SplitProperties.

Variable rng : Type.
Variable permutation : nat -> rng -> list nat * rng.

Lemma draw_permutation_Ok (n : nat) (g : rng) p g' :
  draw_permutation permutation n g = Ok (p, g') -> p = fst (permutation n g).
Proof. unfold draw_permutation. intros H. inversion H as [H']. by rewrite H'. Qed.

Lemma shuffle_subseteq {A} (ds l : list A) g g' :
  shuffle rng permutation ds g = Ok (l, g') -> l ⊆ ds.
Proof.
  unfold shuffle. intros H. destruct (length ds =? 0)%nat.
  { apply ret_Ok in H. by destruct H as [-> _]. }
  inv_M H.
  apply lift_Ok in H. destruct H as [H _]. by eapply select_subseteq.
Qed.

Lemma train_test_split_subseteq {A} (ds tr te : list A) test_size g g' :
  train_test_split rng permutation ds test_size g = Ok ((tr, te), g') -> tr ⊆ ds /\ te ⊆ ds.
Proof.
  unfold train_test_split. intros H.
  destruct (length ds =? 0)%nat.
  { apply ret_Ok in H. destruct H as [H _]. by inversion H; subst. }
  destruct (_ || _).
  { apply lift_Ok in H. destruct H. discriminate. }
  inv_M H. destruct (_ <? _).
  { apply lift_Ok in H. destruct H. discriminate. }
  destruct (_ =? _).
  { apply lift_Ok in H. destruct H. discriminate. }
  inv_M H. apply ret_Ok in H. destruct H as [H _]. inversion H; subst.
  apply lift_Ok in H3, H4. destruct H3 as [H3 _], H4 as [H4 _].
  split; by eapply select_subseteq.
Qed.

Lemma split_data_subseteq {A} (ds tr va te : list A) train_split val_split g g' :
  split_data rng permutation ds train_split val_split g = Ok ((tr, va, te), g') ->
  tr ⊆ ds /\ va ⊆ ds /\ te ⊆ ds.
Proof.
  unfold split_data, flatten_indices. intros H. inv_M H.
  apply ret_Ok in H. destruct H as [H _]. inversion H; subst. clear H.
  apply shuffle_subseteq in H0.
  destruct a0 as [tr rest], a2 as [va te]. simpl.
  apply train_test_split_subseteq in H1, H3.
  destruct H1 as [Htr Hrest], H3 as [Hva Hte].
  repeat split; set_solver.
Qed.

(** From here on the generator does what numpy documents: it returns the
    numbers below [n], each once. *)
Hypothesis permutation_spec :
  forall n g, fst (permutation n g) ≡ₚ seq 0 n.

Lemma shuffle_Permutation {A} (ds l : list A) g g' :
  shuffle rng permutation ds g = Ok (l, g') -> l ≡ₚ ds.
Proof.
  unfold shuffle. intros H. destruct (length ds =? 0)%nat.
  { apply ret_Ok in H. by destruct H as [-> _]. }
  inv_M H.
  apply lift_Ok in H. destruct H as [H _].
  apply draw_permutation_Ok in H0. subst a.
  eapply select_Permutation; [apply permutation_spec | exact H].
Qed.

Lemma train_test_split_Permutation {A} (ds tr te : list A) test_size g g' :
  train_test_split rng permutation ds test_size g = Ok ((tr, te), g') -> tr ++ te ≡ₚ ds.
Proof.
  unfold train_test_split. intros H.
  destruct (Nat.eqb_spec (length ds) 0) as [Hlen|Hlen].
  { apply ret_Ok in H. destruct H as [H _]. inversion H; subst.
    destruct ds; [reflexivity | discriminate]. }
  destruct (_ || _).
  { apply lift_Ok in H. destruct H. discriminate. }
  inv_M H. destruct (_ <? _).
  { apply lift_Ok in H. destruct H. discriminate. }
  destruct (_ =? _).
  { apply lift_Ok in H. destruct H. discriminate. }
  inv_M H. apply ret_Ok in H. destruct H as [H _]. inversion H; subst. clear H.
  apply lift_Ok in H3, H4. destruct H3 as [H3 _], H4 as [H4 _].
  apply draw_permutation_Ok in H2.
  pose proof (permutation_spec (length ds) g1) as Hp. rewrite <- H2 in Hp.
  apply select_omap in H3, H4. rewrite H3, H4.
  rewrite <- omap_app.
  replace (a0 + (len ds - a0)) with (len a1).
  2:{ unfold len. apply Permutation_length in Hp. rewrite length_seq in Hp. lia. }
  rewrite (Permutation_app_comm (py_slice a0 (len a1) a1)), py_slice_split, Hp.
  pose proof (omap_lookup_seq [] ds) as Hs. simpl in Hs. by rewrite Hs.
Qed.

Lemma split_data_Permutation {A} (ds tr va te : list A) train_split val_split g g' :
  split_data rng permutation ds train_split val_split g = Ok ((tr, va, te), g') ->
  tr ++ va ++ te ≡ₚ ds.
Proof.
  unfold split_data, flatten_indices. intros H. inv_M H.
  apply ret_Ok in H. destruct H as [H _]. inversion H; subst. clear H.
  apply shuffle_Permutation in H0.
  destruct a0 as [tr rest], a2 as [va te]. simpl in *.
  apply train_test_split_Permutation in H1, H3.
  by rewrite H3, H1.
Qed.

End SplitProperties.

(** ** Rows keep their identity through [split_data]

    The library's operations move rows and never look into them, so
    running them on the rows tagged with their positions tells where each
    returned row came from. *)

Section Naturality.

Variable rng : Type.
Variable permutation : nat -> rng -> list nat * rng.
Context {A B : Type} (f : A -> B).

Lemma select_fmap (indices : list nat) (ds : list A) :
  select indices (f <$> ds) = result_map (fmap f) (select indices ds).
Proof.
  unfold select. induction indices as [|i idx IH]; simpl; [reflexivity|].
  rewrite list_lookup_fmap, IH.
  destruct (ds !! i); simpl; [|reflexivity].
  clear IH. destruct (comprehension _ idx); reflexivity.
Qed.

Lemma shuffle_fmap (ds : list A) (g : rng) :
  shuffle rng permutation (f <$> ds) g
  = result_map (fun r => (f <$> fst r, snd r)) (shuffle rng permutation ds g).
Proof.
  unfold shuffle, bind, draw_permutation, lift, ret.
  rewrite length_fmap. destruct (length ds =? 0)%nat; [reflexivity|].
  destruct (permutation (length ds) g) as [perm g'].
  rewrite select_fmap. destruct (select perm ds); reflexivity.
Qed.

Lemma train_test_split_fmap (ds : list A) (test_size : float) (g : rng) :
  train_test_split rng permutation (f <$> ds) test_size g
  = result_map (fun r => (f <$> fst (fst r), f <$> snd (fst r), snd r))
      (train_test_split rng permutation ds test_size g).
Proof.
  unfold train_test_split, bind, draw_permutation, lift, ret, len.
  rewrite length_fmap.
  destruct (length ds =? 0)%nat; [reflexivity|].
  destruct (_ || _); [reflexivity|].
  destruct (float_of_int _) as [n|]; [|reflexivity].
  destruct (py_ceil _) as [n_test|]; [|reflexivity].
  destruct (_ <? _); [reflexivity|].
  destruct (_ =? _); [reflexivity|].
  destruct (permutation (length ds) g) as [perm g'].
  rewrite !select_fmap.
  destruct (select (py_slice n_test _ perm) ds); [|reflexivity].
  destruct (select (py_slice 0 n_test perm) ds); reflexivity.
Qed.

Lemma split_data_fmap (ds : list A) (train_split val_split : float) (g : rng) :
  split_data rng permutation (f <$> ds) train_split val_split g
  = result_map
      (fun r => (f <$> fst (fst (fst r)), f <$> snd (fst (fst r)), f <$> snd (fst r), snd r))
      (split_data rng permutation ds train_split val_split g).
Proof.
  unfold split_data, flatten_indices, bind at 1 5.
  rewrite shuffle_fmap.
  destruct (shuffle rng permutation ds g) as [[ds1 g1]|]; [|reflexivity].
  simpl. unfold bind at 1 4. rewrite train_test_split_fmap.
  destruct (train_test_split rng permutation ds1 _ g1) as [[[tr rest] g2]|];
    [|reflexivity].
  simpl. unfold bind at 1 3, lift.
  destruct (py_div _ _) as [q|]; [|reflexivity].
  unfold bind, ret. rewrite train_test_split_fmap.
  destruct (train_test_split rng permutation rest _ g2) as [[[va te] g3]|];
    reflexivity.
Qed.

End Naturality.

Lemma tagged_fst {A} (ds : list A) : fst <$> tagged ds = seq 0 (length ds).
Proof. unfold tagged. apply fst_zip. by rewrite length_seq. Qed.

Lemma tagged_snd {A} (ds : list A) : snd <$> tagged ds = ds.
Proof. unfold tagged. apply snd_zip. by rewrite length_seq. Qed.

Lemma tagged_lookup {A} (ds : list A) (i : nat) (x : A) :
  (i, x) ∈ tagged ds -> ds !! i = Some x.
Proof.
  unfold tagged. intros H. apply list_elem_of_lookup in H. destruct H as [j Hj].
  apply lookup_zip_with_Some in Hj. destruct Hj as (i' & x' & Heq & Hi & Hx).
  inversion Heq; subst. apply lookup_seq in Hi. destruct Hi as [-> _]. exact Hx.
Qed.

Lemma rows_at_tagged {A} (ds : list A) (l : list (nat * A)) :
  l ⊆ tagged ds -> rows_at ds (fst <$> l) = snd <$> l.
Proof.
  unfold rows_at. induction l as [|[i x] l IH]; intros Hl; simpl; [reflexivity|].
  rewrite (tagged_lookup ds i x) by (apply Hl; left). simpl. f_equal.
  apply IH. intros y Hy. apply Hl. by right.
Qed.

(** ** Sorting by a column *)

#[global] Instance column_le_total {A} (column : A -> Z) : Total (column_le column).
Proof. intros x y. unfold column_le. lia. Qed.

#[global] Instance column_le_trans {A} (column : A -> Z) : Transitive (column_le column).
Proof. intros x y z. unfold column_le. lia. Qed.

Lemma sort_sorted {A} (column : A -> Z) (ds : list A) :
  StronglySorted (column_le column) (sort column ds).
Proof. apply StronglySorted_merge_sort; apply _. Qed.

Lemma sort_Permutation {A} (column : A -> Z) (ds : list A) : sort column ds ≡ₚ ds.
Proof. apply merge_sort_Permutation. Qed.

Lemma sort_Forall {A} (P : A -> Prop) (column : A -> Z) (ds : list A) :
  Forall P ds -> Forall P (sort column ds).
Proof. intros H. by rewrite sort_Permutation. Qed.

Lemma subseteq_Forall {A} (P : A -> Prop) (l ds : list A) :
  l ⊆ ds -> Forall P ds -> Forall P l.
Proof. rewrite !Forall_forall. intros Hl H x Hx. apply H, Hl, Hx. Qed.

(** ** Runs of the code *)

Lemma rotating_spec (n g : nat) : fst (rotating n g) ≡ₚ seq 0 n.
Proof.
  unfold rotating, rotate. simpl.
  rewrite Permutation_app_comm. by rewrite take_drop.
Qed.

Example load_reddit_example :
  load_reddit nat rotating example_hub 0.5 0.25 3 0%nat
  = Ok ((example_train, example_val, example_test), 3%nat).
Proof. vm_compute. reflexivity. Qed.

Example split_data_example :
  split_data nat rotating [10; 11; 12; 13; 14; 15; 16] 0.5 0.25 0%nat
  = Ok (([15; 16; 10], [11; 12], [13; 14]), 3%nat).
Proof. vm_compute. reflexivity. Qed.

(** The library refuses a split that leaves the train side empty, so on a
    dataset of one row [split_data] raises whatever the ratios. *)
Example split_data_single_row :
  split_data nat rotating [10] 0.5 0.25 0%nat
  = Raise (ValueError "the resulting train set will be empty").
Proof. vm_compute. reflexivity. Qed.

(** A train ratio of one makes line 53 divide by zero; on an empty dataset
    nothing stops the call before that line. *)
Example split_data_train_ratio_one :
  split_data nat rotating (@nil Z) 1 0.25 0%nat
  = Raise (ZeroDivisionError "float division by zero").
Proof. vm_compute. reflexivity. Qed.

(** ** Claims about [split_data] and [load_reddit] *)

(** C5. The three partitions that [split_data] returns are the rows of the
    dataset at three lists of positions that are pairwise disjoint and
    together hold every position once; hence their sizes add up to the size
    of the dataset, exactly. *)
Theorem split_data_partition (rng : Type) (permutation : nat -> rng -> list nat * rng)
    (permutation_spec : forall n g, fst (permutation n g) ≡ₚ seq 0 n)
    {A} (ds tr va te : list A) (train_split val_split : float) (g g' : rng) :
  split_data rng permutation ds train_split val_split g = Ok ((tr, va, te), g') ->
  exists itr iva ite : list nat,
    tr = rows_at ds itr /\ va = rows_at ds iva /\ te = rows_at ds ite
    /\ itr ++ iva ++ ite ≡ₚ seq 0 (length ds)
    /\ (forall i, i ∈ itr -> i ∉ iva)
    /\ (forall i, i ∈ itr -> i ∉ ite)
    /\ (forall i, i ∈ iva -> i ∉ ite)
    /\ (length tr + length va + length te = length ds)%nat.
Proof.
  intros H. rewrite <- (tagged_snd ds) in H at 1.
  rewrite split_data_fmap in H.
  destruct (split_data rng permutation (tagged ds) train_split val_split g)
    as [[[[trT vaT] teT] g1]|] eqn:HT; [|discriminate].
  simpl in H. inversion H; subst. clear H.
  pose proof (split_data_subseteq _ _ _ _ _ _ _ _ _ _ HT) as (Htr & Hva & Hte).
  pose proof (split_data_Permutation _ _ permutation_spec _ _ _ _ _ _ _ _ HT) as Hp.
  assert (Hi : (fst <$> trT) ++ (fst <$> vaT) ++ (fst <$> teT) ≡ₚ seq 0 (length ds)).
  { rewrite <- !fmap_app, Hp. by rewrite tagged_fst. }
  assert (Hnd : NoDup ((fst <$> trT) ++ (fst <$> vaT) ++ (fst <$> teT))).
  { rewrite Hi. apply NoDup_seq. }
  apply NoDup_app in Hnd. destruct Hnd as (_ & Hd1 & Hnd).
  apply NoDup_app in Hnd. destruct Hnd as (_ & Hd2 & _).
  exists (fst <$> trT), (fst <$> vaT), (fst <$> teT).
  rewrite !rows_at_tagged by assumption.
  repeat split; try assumption.
  - intros i Hi1 Hi2. apply (Hd1 i Hi1). apply elem_of_app. by left.
  - intros i Hi1 Hi2. apply (Hd1 i Hi1). apply elem_of_app. by right.
  - apply Permutation_length in Hp. rewrite !length_app in Hp.
    rewrite !length_fmap. unfold tagged in Hp.
    rewrite length_zip_with, length_seq in Hp. lia.
Qed.

Lemma split_data_partition_witness :
  exists itr iva ite : list nat,
    [15; 16; 10] = rows_at [10; 11; 12; 13; 14; 15; 16] itr
    /\ [11; 12] = rows_at [10; 11; 12; 13; 14; 15; 16] iva
    /\ [13; 14] = rows_at [10; 11; 12; 13; 14; 15; 16] ite
    /\ itr ++ iva ++ ite ≡ₚ seq 0 7
    /\ (forall i, i ∈ itr -> i ∉ iva)
    /\ (forall i, i ∈ itr -> i ∉ ite)
    /\ (forall i, i ∈ iva -> i ∉ ite)
    /\ (3 + 2 + 2 = 7)%nat.
Proof.
  apply (split_data_partition nat rotating rotating_spec
           [10; 11; 12; 13; 14; 15; 16] [15; 16; 10] [11; 12] [13; 14]
           0.5 0.25 0%nat 3%nat).
  vm_compute. reflexivity.
Defined.

(** What [load_reddit] returns, in terms of the dataset it hands to
    [split_data]: the rows that pass the filter, each with its [doc_len]. *)
Lemma load_reddit_Ok (rng : Type) (permutation : nat -> rng -> list nat * rng)
    (load_dataset : string -> string -> result (gmap string (list raw_row)))
    (train_split val_split : float) (min_len : Z) (g g' : rng)
    (tr va te : list instance_len) :
  load_reddit rng permutation load_dataset train_split val_split min_len g
  = Ok ((tr, va, te), g') ->
  exists (dataset : list instance) (tr0 va0 te0 : list instance_len),
    Forall (fun x => long_enough min_len x = true) dataset
    /\ tr0 ⊆ add_doc_len <$> dataset
    /\ va0 ⊆ add_doc_len <$> dataset
    /\ te0 ⊆ add_doc_len <$> dataset
    /\ tr = sort doc_len tr0 /\ va = sort doc_len va0 /\ te = sort doc_len te0.
Proof.
  unfold load_reddit. intros H. inv_M H.
  destruct a3 as [[tr0 va0] te0].
  apply ret_Ok in H. destruct H as [H _]. inversion H; subst. clear H.
  apply split_data_subseteq in H4. destruct H4 as (Htr & Hva & Hte).
  eexists _, tr0, va0, te0. repeat split; try eassumption.
  apply Forall_forall. intros x Hx.
  apply list_elem_of_In, filter_In in Hx. tauto.
Qed.

(** C6. Each of the three partitions that [load_reddit] returns is sorted
    non-decreasingly by [doc_len], and the [doc_len] of every row is the
    length of its document. *)
Theorem load_reddit_sorted (rng : Type) (permutation : nat -> rng -> list nat * rng)
    (load_dataset : string -> string -> result (gmap string (list raw_row)))
    (train_split val_split : float) (min_len : Z) (g g' : rng)
    (tr va te : list instance_len) :
  load_reddit rng permutation load_dataset train_split val_split min_len g
  = Ok ((tr, va, te), g') ->
  Forall (fun part =>
            StronglySorted (column_le doc_len) part
            /\ Forall (fun x => doc_len x = str_len (document x)) part)
         [tr; va; te].
Proof.
  intros H. apply load_reddit_Ok in H.
  destruct H as (dataset & tr0 & va0 & te0 & _ & Htr & Hva & Hte & -> & -> & ->).
  assert (Hlen : Forall (fun x => doc_len x = str_len (document x))
                   (add_doc_len <$> dataset)).
  { apply Forall_fmap, Forall_forall. intros x _. reflexivity. }
  repeat constructor; try apply sort_sorted;
    apply sort_Forall; eapply subseteq_Forall; eassumption.
Qed.

Lemma load_reddit_sorted_witness :
  Forall (fun part =>
            StronglySorted (column_le doc_len) part
            /\ Forall (fun x => doc_len x = str_len (document x)) part)
         [example_train; example_val; example_test].
Proof.
  apply (load_reddit_sorted nat rotating example_hub 0.5 0.25 3 0%nat 3%nat).
  vm_compute. reflexivity.
Defined.

Lemma long_enough_passes (min_len : Z) (x : instance) :
  long_enough min_len x = true -> passes_threshold min_len x.
Proof. unfold long_enough, passes_threshold. rewrite !andb_true_iff. lia. Qed.

(** C7. Every instance of every partition that [load_reddit] returns has a
    document and a summary longer than [min_len]; and a property of all
    rows of a dataset is a property of all rows of what [shuffle],
    [train_test_split] and [sort] make of it. *)
Theorem load_reddit_filtered (rng : Type) (permutation : nat -> rng -> list nat * rng)
    (load_dataset : string -> string -> result (gmap string (list raw_row)))
    (train_split val_split : float) (min_len : Z) (g g' : rng)
    (tr va te : list instance_len) :
  load_reddit rng permutation load_dataset train_split val_split min_len g
  = Ok ((tr, va, te), g') ->
  Forall (passes_threshold min_len) (fields <$> tr ++ va ++ te)
  /\ (forall (P : instance_len -> Prop) (ds : list instance_len),
        Forall P ds ->
        (forall l g1 g2, shuffle rng permutation ds g1 = Ok (l, g2) -> Forall P l)
        /\ (forall test_size l1 l2 g1 g2,
              train_test_split rng permutation ds test_size g1 = Ok ((l1, l2), g2) ->
              Forall P l1 /\ Forall P l2)
        /\ Forall P (sort doc_len ds)).
Proof.
  intros H. split.
  - apply load_reddit_Ok in H.
    destruct H as (dataset & tr0 & va0 & te0 & Hf & Htr & Hva & Hte & -> & -> & ->).
    assert (Hall : Forall (fun x : instance_len => passes_threshold min_len x)
                     (add_doc_len <$> dataset)).
    { apply Forall_fmap. eapply Forall_impl; [exact Hf|].
      intros x Hx. by apply long_enough_passes. }
    apply Forall_fmap. rewrite !Forall_app.
    repeat split; apply sort_Forall; eapply subseteq_Forall; eassumption.
  - intros P ds HP. repeat split.
    + intros l g1 g2 Hs. apply shuffle_subseteq in Hs. by eapply subseteq_Forall.
    + apply train_test_split_subseteq in H0. destruct H0. by eapply subseteq_Forall.
    + apply train_test_split_subseteq in H0. destruct H0. by eapply subseteq_Forall.
    + by apply sort_Forall.
Qed.

Lemma load_reddit_filtered_witness :
  Forall (passes_threshold 3) (fields <$> example_train ++ example_val ++ example_test).
Proof.
  apply (load_reddit_filtered nat rotating example_hub 0.5 0.25 3 0%nat 3%nat
           example_train example_val example_test).
  vm_compute. reflexivity.
Defined.

(** ** Claims about [init_schedule] *)

Lemma float_of_int_raises (z : Z) (e : exn) : float_of_int z = Raise e -> e = int_overflow.
Proof.
  unfold float_of_int.
  destruct (is_infinity (SF2Prim (binary_normalize prec emax z 0 false)));
    intros H; inversion H; reflexivity.
Qed.

Lemma recognized_NoDup : NoDup recognized.
Proof. apply (bool_decide_unpack _). vm_compute. exact I. Qed.

Lemma recognized_bogus : "bogus"%string ∉ recognized.
Proof. apply (bool_decide_unpack _). vm_compute. exact I. Qed.

Lemma py_pow_raises (float_pow : float -> float -> result float) (x y : float) (e : exn) :
  py_pow float_pow x y = Raise e -> lambda_error e.
Proof.
  unfold py_pow, lambda_error.
  destruct (is_nan x); [discriminate|].
  destruct (is_infinity x); [discriminate|].
  destruct (is_zero x); [intros H; inversion H; eauto|].
  destruct (x <? 0)%float; [discriminate|].
  destruct (x =? 1)%float; [discriminate|].
  destruct (float_pow x y); [discriminate|].
  intros H. inversion H. eauto.
Qed.

Lemma int_pow_raises (float_pow : float -> float -> result float) (base : Z) (y : float)
    (e : exn) :
  int_pow float_pow base y = Raise e -> lambda_error e.
Proof.
  unfold int_pow. destruct (float_of_int base) as [x|e'] eqn:Hx; simpl.
  - apply py_pow_raises.
  - intros H. inversion H. subst e'. apply float_of_int_raises in Hx. subst e.
    right. left. unfold int_overflow. eauto.
Qed.

Lemma lambda_noam_raises (float_pow : float -> float -> result float)
    (emb_dim : Z) (warmup_steps : float) (current_step : Z) (e : exn) :
  lambda_noam float_pow emb_dim warmup_steps current_step = Raise e -> lambda_error e.
Proof.
  unfold lambda_noam.
  destruct (int_pow float_pow emb_dim (-0.5)) as [pe|e1] eqn:H1; simpl.
  2:{ intros H. inversion H. subst e1. by eapply int_pow_raises. }
  destruct (int_pow float_pow (current_step + 1) (-0.5)) as [a|e2] eqn:H2; simpl.
  2:{ intros H. inversion H. subst e2. by eapply int_pow_raises. }
  destruct (py_pow float_pow warmup_steps (-1.5)) as [w|e3] eqn:H3; simpl.
  2:{ intros H. inversion H. subst e3. by eapply py_pow_raises. }
  destruct (float_of_int (current_step + 1)) as [c|e4] eqn:H4; simpl.
  2:{ intros H. inversion H. subst e4. apply float_of_int_raises in H4. subst e.
      right. left. unfold int_overflow. eauto. }
  destruct a, w; simpl; intros H; inversion H; unfold lambda_error; eauto.
Qed.

Section SchedulerProperties.

Context {optimizer B : Type} `{Optimizer optimizer}.
Variable float_pow : float -> float -> result float.
Variables (opt : optimizer) (train_loader : list B) (lr : float) (epochs emb_dim : Z).

(** The four names whose scheduler needs nothing of the arguments always
    get it: the two multipliers are [1] at step [0]. *)
Lemma init_schedule_fixed (sched : string) :
  sched ∈ fixed_schedules ->
  returns (init_schedule float_pow opt sched train_loader lr epochs emb_dim).
Proof.
  unfold fixed_schedules. rewrite !elem_of_cons, elem_of_nil.
  intros [->|[->|[->|[->|[]]]]]; by eexists.
Qed.

Lemma init_schedule_linear :
  init_schedule float_pow opt "linear" train_loader lr epochs emb_dim
  = if linear_factors_ok lr
    then Ok (LinearLR opt (lr / 5) lr (len train_loader * epochs))
    else if (1 <? lr / 5)%float || (lr / 5 <=? 0)%float
    then Raise (ValueError
           "Starting multiplicative factor expected to be greater than 0 and less or equal to 1.")
    else Raise (ValueError "Ending multiplicative factor expected to be between 0 and 1.").
Proof.
  unfold init_schedule, LinearLR_init, linear_factors_ok. simpl.
  destruct (_ || _); simpl; [reflexivity|].
  destruct (_ || _); reflexivity.
Qed.

Lemma init_schedule_onecycle (e : exn) :
  init_schedule float_pow opt "onecycle" train_loader lr epochs emb_dim = Raise e ->
  (exists msg, e = ValueError msg) \/ e = int_overflow.
Proof.
  unfold init_schedule, OneCycleLR_init. simpl.
  destruct (_ <=? 0); [intros H'; inversion H'; eauto|].
  destruct (float_of_int _) as [x|e'] eqn:Hx; simpl.
  - destruct (momentum_or_betas opt); simpl; [discriminate|].
    intros H'. inversion H'. eauto.
  - intros H'. inversion H'. subst e'. right. by eapply float_of_int_raises.
Qed.

Lemma init_schedule_onecycle_returns :
  returns (init_schedule float_pow opt "onecycle" train_loader lr epochs emb_dim)
  <-> 0 < len train_loader * epochs
      /\ returns (float_of_int (len train_loader * epochs))
      /\ momentum_or_betas opt = true.
Proof.
  unfold init_schedule, OneCycleLR_init. simpl.
  destruct (Z.leb_spec (len train_loader * epochs) 0) as [Hle|Hlt].
  { split; [intros [s Hs]; discriminate | intros [Hpos _]; lia]. }
  destruct (float_of_int _) as [x|e'] eqn:Hx; simpl.
  - destruct (momentum_or_betas opt); simpl.
    + split; [intros _; repeat split; [assumption | by eexists] | intros _; by eexists].
    + split; [intros [s Hs]; discriminate | intros (_ & _ & Hm); discriminate].
  - split; [intros [s Hs]; discriminate | intros (_ & [y Hy] & _); discriminate].
Qed.

Lemma init_schedule_noam (e : exn) :
  init_schedule float_pow opt "noam" train_loader lr epochs emb_dim = Raise e ->
  lambda_error e.
Proof.
  unfold init_schedule, LambdaLR_init. simpl.
  destruct (float_of_int (len train_loader)) as [n|e1] eqn:Hn; simpl.
  2:{ intros H'. inversion H'. subst e1. apply float_of_int_raises in Hn. subst e.
      right. left. unfold int_overflow. eauto. }
  destruct (float_of_int epochs) as [ep|e2] eqn:Hep; simpl.
  2:{ intros H'. inversion H'. subst e2. apply float_of_int_raises in Hep. subst e.
      right. left. unfold int_overflow. eauto. }
  destruct (lambda_noam _ _ _ _) as [v|e3] eqn:Hl; simpl; [discriminate|].
  intros H'. inversion H'. subst e3. by eapply lambda_noam_raises.
Qed.

Lemma init_schedule_noam_returns :
  returns (init_schedule float_pow opt "noam" train_loader lr epochs emb_dim)
  <-> exists n ep,
        float_of_int (len train_loader) = Ok n
        /\ float_of_int epochs = Ok ep
        /\ returns (lambda_noam float_pow emb_dim (0.3 * n * ep) 0).
Proof.
  unfold init_schedule, LambdaLR_init. simpl.
  destruct (float_of_int (len train_loader)) as [n|e1]; simpl.
  2:{ split; [intros [s Hs]; discriminate | intros (n & ep & Hn & _); discriminate]. }
  destruct (float_of_int epochs) as [ep|e2]; simpl.
  2:{ split; [intros [s Hs]; discriminate | intros (n' & ep & _ & Hep & _); discriminate]. }
  split.
  - intros [s Hs]. exists n, ep. repeat split.
    destruct (lambda_noam _ _ _ _); [by eexists | discriminate].
  - intros (n' & ep' & Hn & Hep & [v Hv]). inversion Hn. inversion Hep. subst.
    rewrite Hv. by eexists.
Qed.

(** No recognized name ends in the error of line 75. *)
Lemma init_schedule_recognized (sched : string) :
  sched ∈ recognized ->
  init_schedule float_pow opt sched train_loader lr epochs emb_dim <> Raise invalid_option.
Proof.
  unfold recognized. rewrite !elem_of_cons, elem_of_nil.
  intros [->|[->|[->|[->|[->|[->|[->|[]]]]]]]] Hr.
  - discriminate.
  - discriminate.
  - discriminate.
  - discriminate.
  - rewrite init_schedule_linear in Hr.
    destruct (linear_factors_ok lr); [discriminate|].
    destruct (_ || _); discriminate.
  - revert Hr. unfold init_schedule, OneCycleLR_init, invalid_option. simpl.
    destruct (_ <=? 0); [discriminate|].
    destruct (float_of_int _) as [x|e] eqn:Hx; simpl.
    + destruct (momentum_or_betas opt); discriminate.
    + apply float_of_int_raises in Hx. subst e. discriminate.
  - apply init_schedule_noam in Hr.
    destruct Hr as [[m Hm]|[[m Hm]|[m Hm]]]; discriminate.
Qed.

Lemma init_schedule_invalid (sched : string) :
  init_schedule float_pow opt sched train_loader lr epochs emb_dim = Raise invalid_option
  <-> sched ∉ recognized.
Proof.
  split.
  - intros Hr Hin. by apply (init_schedule_recognized sched Hin).
  - unfold recognized. rewrite !not_elem_of_cons.
    intros (H1 & H2 & H3 & H4 & H5 & H6 & H7 & _).
    unfold init_schedule.
    apply String.eqb_neq in H1, H2, H3, H4, H5, H6, H7.
    by rewrite H1, H2, H3, H4, H5, H6, H7.
Qed.

End SchedulerProperties.

(** C4, as the code has it.  [init_schedule] raises the error of line 75
    exactly when the name is none of the seven names it compares with
    (which select six constructions), and ["bogus"] raises it.  The four
    names of [fixed_schedules] always get a scheduler.  ["linear"] gets one
    exactly when [LinearLR] accepts the factors [lr / 5] and [lr], and
    fails with a [ValueError] otherwise; ["onecycle"] exactly when the
    number of steps is positive and fits a float and the optimizer keeps a
    momentum, and fails with a [ValueError] or the overflow of the
    conversion otherwise; ["noam"] exactly when line 72 can convert its
    two integers and the first call of the multiplier, which the
    constructor of [LambdaLR] makes, returns. *)
Theorem init_schedule_failure_paths {optimizer B : Type} `{Optimizer optimizer}
    (float_pow : float -> float -> result float) (opt : optimizer) (sched : string)
    (train_loader : list B) (lr : float) (epochs emb_dim : Z) :
  let r := init_schedule float_pow opt sched train_loader lr epochs emb_dim in
  let total := len train_loader * epochs in
  (r = Raise invalid_option <-> sched ∉ recognized)
  /\ init_schedule float_pow opt "bogus" train_loader lr epochs emb_dim
     = Raise invalid_option
  /\ length recognized = 7%nat /\ NoDup recognized
  /\ (sched ∈ fixed_schedules -> returns r)
  /\ (sched = "linear"%string ->
      (returns r <-> linear_factors_ok lr = true)
      /\ (forall e, r = Raise e -> exists msg, e = ValueError msg))
  /\ (sched = "onecycle"%string ->
      (returns r <->
       0 < total /\ returns (float_of_int total) /\ momentum_or_betas opt = true)
      /\ (forall e, r = Raise e -> (exists msg, e = ValueError msg) \/ e = int_overflow))
  /\ (sched = "noam"%string ->
      (returns r <->
       exists n ep,
         float_of_int (len train_loader) = Ok n
         /\ float_of_int epochs = Ok ep
         /\ returns (lambda_noam float_pow emb_dim (0.3 * n * ep) 0))
      /\ (forall e, r = Raise e -> lambda_error e)).
Proof.
  intros r total. subst r total.
  split; [|split; [|split; [|split; [|split; [|split; [|split]]]]]].
  - apply init_schedule_invalid.
  - apply init_schedule_invalid. apply recognized_bogus.
  - reflexivity.
  - apply recognized_NoDup.
  - apply init_schedule_fixed.
  - intros ->. rewrite init_schedule_linear. split.
    + destruct (linear_factors_ok lr).
      * split; [reflexivity | intros _; by eexists].
      * split; [|discriminate]. intros [s Hs].
        destruct (_ || _); discriminate.
    + intros e He. destruct (linear_factors_ok lr); [discriminate|].
      destruct (_ || _); inversion He; eauto.
  - intros ->. split; [apply init_schedule_onecycle_returns|].
    apply init_schedule_onecycle.
  - intros ->. split; [apply init_schedule_noam_returns|].
    apply init_schedule_noam.
Qed.

(** C4 as stated fails: seven distinct names are accepted, not six; and an
    accepted name does not always get a scheduler: ["linear"] with a rate
    of ten, ["onecycle"] with an empty loader or an optimizer without
    momentum, and ["noam"] with an empty loader raise. *)
Lemma init_schedule_six_names_counterexample :
  (NoDup recognized /\ length recognized = 7%nat
   /\ Forall (fun sched =>
                returns (init_schedule example_pow SGD sched [tt; tt; tt] 0.5 10 512))
             recognized)
  /\ (exists msg,
        init_schedule example_pow SGD "linear" [tt; tt; tt] 10 10 512
        = Raise (ValueError msg))
  /\ (exists msg,
        init_schedule example_pow SGD "onecycle" (@nil unit) 0.5 10 512
        = Raise (ValueError msg))
  /\ (exists msg,
        init_schedule example_pow Adagrad "onecycle" [tt; tt; tt] 0.5 10 512
        = Raise (ValueError msg))
  /\ (exists msg,
        init_schedule example_pow SGD "noam" (@nil unit) 0.5 10 512
        = Raise (ZeroDivisionError msg)).
Proof.
  split; [split; [|split] | split; [|split; [|split]]].
  - apply recognized_NoDup.
  - reflexivity.
  - unfold recognized. repeat constructor; eexists; reflexivity.
  - eexists. reflexivity.
  - eexists. reflexivity.
  - eexists. reflexivity.
  - eexists. reflexivity.
Qed.

(** C9. ["constant"] and ["none"] give the same scheduler: a [LambdaLR]
    whose multiplier is [1] at every step. *)
Theorem init_schedule_constant_none {optimizer B : Type} `{Optimizer optimizer}
    (float_pow : float -> float -> result float) (opt : optimizer)
    (train_loader : list B) (lr : float) (epochs emb_dim : Z) :
  init_schedule float_pow opt "constant" train_loader lr epochs emb_dim
  = init_schedule float_pow opt "none" train_loader lr epochs emb_dim
  /\ exists lr_lambda : Z -> result num,
       init_schedule float_pow opt "constant" train_loader lr epochs emb_dim
       = Ok (LambdaLR opt lr_lambda)
       /\ forall step : Z, lr_lambda step = Ok (Int 1).
Proof.
  split; [reflexivity|]. exists lambda_constant. split; reflexivity.
Qed.

(** ** [batch_by_instances] in the module as it is written *)

Lemma utils_globals_torch : "torch"%string ∉ utils_globals.
Proof. apply (bool_decide_unpack _). vm_compute. exact I. Qed.

Lemma globals_with_torch_torch : "torch"%string ∈ globals_with_torch.
Proof. apply (bool_decide_unpack _). vm_compute. exact I. Qed.

Lemma load_global_unbound (globals : gset string) (name : string) :
  name ∉ globals -> load_global globals name = Raise (NameError name).
Proof. intros H. unfold load_global. by rewrite decide_False. Qed.

Lemma load_global_bound (globals : gset string) (name : string) :
  name ∈ globals -> load_global globals name = Ok tt.
Proof. intros H. unfold load_global. by rewrite decide_True. Qed.

Lemma py_range_zero_step (start stop : Z) :
  py_range start stop 0 = Raise (ValueError "range() arg 3 must not be zero").
Proof. reflexivity. Qed.

(** [range(0, n, step)] is empty when [n = 0], and when it counts down. *)
Lemma py_range_empty (stop step : Z) :
  step <> 0 -> 0 <= stop -> (stop = 0 \/ step < 0) -> py_range 0 stop step = Ok [].
Proof.
  intros Hs Hn Hc. unfold py_range, range_len.
  destruct (Z.eqb_spec step 0); [contradiction|].
  destruct (Z.ltb_spec 0 step).
  - assert ((stop - 0 + step - 1) / step < 1) by (apply Z.div_lt_upper_bound; lia).
    replace (Z.to_nat _) with 0%nat by lia. reflexivity.
  - assert ((0 - stop - step - 1) / - step < 1) by (apply Z.div_lt_upper_bound; lia).
    replace (Z.to_nat _) with 0%nat by lia. reflexivity.
Qed.

(** The first index of [range(0, n, step)] when it counts up. *)
Lemma py_range_first (stop step : Z) :
  0 < step -> 0 < stop -> exists rest, py_range 0 stop step = Ok (0 :: rest).
Proof.
  intros Hs Hn. unfold py_range, range_len.
  destruct (Z.eqb_spec step 0); [lia|].
  destruct (Z.ltb_spec 0 step); [|lia].
  assert (1 <= (stop - 0 + step - 1) / step) by (apply Z.div_le_lower_bound; lia).
  destruct (Z.to_nat _) as [|k] eqn:Hk; [lia|].
  simpl. eexists. reflexivity.
Qed.

Section Unbound.

Variable globals : gset string.
Hypothesis torch_unbound : "torch"%string ∉ globals.
Variables (dev : device) (sequences : list (list Z)) (labels : list Z).
Variables (batch_size pad_token : Z).

(** No iteration of the loop gets past line 102. *)
Lemma batch_body_raises (i : Z) (acc : list tensor2 * list tensor1) :
  raises (batch_body globals dev sequences labels batch_size pad_token i acc).
Proof.
  unfold batch_body.
  destruct (py_max _) as [m|e]; simpl; [|by eexists].
  rewrite load_global_unbound by assumption. by eexists.
Qed.

Lemma for_each_batch_body_Ok (idxs : list Z) (acc acc' : list tensor2 * list tensor1) :
  for_each (batch_body globals dev sequences labels batch_size pad_token) idxs acc
  = Ok acc' ->
  idxs = [] /\ acc' = acc.
Proof.
  destruct idxs as [|i rest]; simpl.
  - intros H. inversion H. auto.
  - destruct (batch_body_raises i acc) as [e ->]. discriminate.
Qed.

Lemma batch_by_instances_no_batch (batches_x : list tensor2) (batches_y : list tensor1) :
  batch_by_instances globals dev sequences labels batch_size pad_token
  = Ok (batches_x, batches_y) ->
  batches_x = [] /\ batches_y = [].
Proof.
  unfold batch_by_instances. intros H. apply rbind_Ok in H.
  destruct H as (idxs & _ & H). apply for_each_batch_body_Ok in H.
  destruct H as [_ H]. inversion H. auto.
Qed.

Lemma batch_by_instances_NameError :
  sequences <> [] -> 0 < batch_size ->
  batch_by_instances globals dev sequences labels batch_size pad_token
  = Raise (NameError "torch").
Proof.
  intros Hne Hb. unfold batch_by_instances.
  destruct (py_range_first (len sequences) batch_size) as [rest ->]; [lia| |].
  { unfold len. destruct sequences; [contradiction | simpl; lia]. }
  simpl. unfold batch_body at 1.
  destruct sequences as [|x xs]; [contradiction|].
  assert (Hs : exists y ys, py_slice 0 (0 + batch_size) (x :: xs) = y :: ys).
  { unfold py_slice, slice_index, len. simpl length.
    destruct (Z.ltb_spec 0 0); [lia|].
    destruct (Z.ltb_spec (0 + batch_size) 0); [lia|].
    replace (Z.to_nat (Z.min 0 _)) with 0%nat by lia. rewrite drop_0.
    destruct (Z.to_nat _) as [|k] eqn:Hk; [lia|]. simpl. eauto. }
  destruct Hs as (y & ys & ->). simpl.
  by rewrite load_global_unbound.
Qed.

End Unbound.

(** ** [batch_by_instances] with [torch] bound

    What lines 94-111 compute once the name [torch] resolves. *)

Lemma fold_left_max_spec (xs : list Z) (x : Z) :
  x <= fold_left Z.max xs x
  /\ Forall (fun y => y <= fold_left Z.max xs x) xs
  /\ fold_left Z.max xs x ∈ x :: xs.
Proof.
  revert x. induction xs as [|y xs IH]; intros x; simpl.
  - repeat split; [lia | constructor | left].
  - destruct (IH (Z.max x y)) as (H1 & H2 & H3). repeat split.
    + lia.
    + constructor; [lia | exact H2].
    + apply elem_of_cons in H3. destruct H3 as [H3|H3].
      * rewrite H3. destruct (Z.max_spec x y) as [[_ ->]|[_ ->]]; [right; left | left].
      * right. by right.
Qed.

Lemma py_max_spec (xs : list Z) (m : Z) :
  py_max xs = Ok m -> Forall (fun y => y <= m) xs /\ m ∈ xs.
Proof.
  destruct xs as [|x xs]; simpl; [discriminate|].
  intros H. inversion H. subst m.
  destruct (fold_left_max_spec xs x) as (H1 & H2 & H3).
  split; [by constructor | exact H3].
Qed.

Lemma py_max_returns (xs : list Z) : xs <> [] -> returns (py_max xs).
Proof. destruct xs; [contradiction|]. intros _. by eexists. Qed.

Lemma pad_to_length (m pad_token : Z) (seq : list Z) :
  len seq <= m -> len (pad_to m pad_token seq) = m.
Proof.
  unfold pad_to, py_repeat, len. intros H.
  rewrite length_app, length_replicate. lia.
Qed.

Lemma LongTensor_Ok (l : list Z) (t : tensor1) :
  LongTensor l = Ok t <-> forallb in_int64 l = true /\ t = Tensor1 "cpu" l.
Proof.
  unfold LongTensor. destruct (forallb in_int64 l); split.
  - intros H. inversion H. auto.
  - intros [_ ->]. reflexivity.
  - discriminate.
  - intros [H _]. discriminate.
Qed.

Lemma stack_Ok (ts : list tensor1) (t : tensor2) :
  stack ts = Ok t ->
  exists u, head ts = Some u /\ t = Tensor2 (device1 u) (map data1 ts).
Proof.
  destruct ts as [|u ts]; simpl; [discriminate|].
  destruct (_ && _); [|discriminate].
  intros H. inversion H. eauto.
Qed.

Section Bound.

Variable globals : gset string.
Hypothesis torch_bound : "torch"%string ∈ globals.
Variables (dev : device) (sequences : list (list Z)) (labels : list Z).
Variables (batch_size pad_token : Z).

Lemma padded_rows (max_len : Z) (batch_x : list (list Z)) (padded : list tensor1) :
  comprehension
    (fun seq => t <- LongTensor (seq ++ py_repeat pad_token (max_len - len seq)) ;;
                Ok (to t dev))
    batch_x = Ok padded ->
  padded = map (fun seq => Tensor1 dev (pad_to max_len pad_token seq)) batch_x.
Proof.
  rewrite comprehension_Ok. induction 1 as [|seq t bx ts Ht _ IH]; simpl.
  - reflexivity.
  - apply rbind_Ok in Ht. destruct Ht as (t' & Ht' & Ht).
    apply LongTensor_Ok in Ht'. destruct Ht' as [_ ->].
    inversion Ht. subst. reflexivity.
Qed.

Lemma batch_body_Ok (i : Z) (acc acc' : list tensor2 * list tensor1) :
  batch_body globals dev sequences labels batch_size pad_token i acc = Ok acc' ->
  py_slice i (i + batch_size) sequences <> []
  /\ acc' = (fst acc ++ [expected_x dev sequences batch_size pad_token i],
              snd acc ++ [expected_y dev labels batch_size i]).
Proof.
  unfold batch_body, expected_x, expected_y, batch_max_len. intros H.
  apply rbind_Ok in H. destruct H as (max_len & Hmax & H). rewrite Hmax.
  apply rbind_Ok in H. destruct H as (_ & _ & H).
  apply rbind_Ok in H. destruct H as (padded & Hp & H).
  apply rbind_Ok in H. destruct H as (tx & Hx & H).
  apply rbind_Ok in H. destruct H as (ty & Hy & H).
  apply padded_rows in Hp. apply LongTensor_Ok in Hy. destruct Hy as [_ ->].
  apply stack_Ok in Hx. destruct Hx as (u & Hu & ->).
  inversion H. subst. clear H. split.
  - intros E. rewrite E in Hmax. discriminate.
  - destruct (py_slice i (i + batch_size) sequences) as [|seq bx];
      [discriminate|].
    simpl in Hu. inversion Hu. subst u. simpl.
    rewrite map_map. reflexivity.
Qed.

Lemma for_each_batch_body (idxs : list Z) (acc acc' : list tensor2 * list tensor1) :
  for_each (batch_body globals dev sequences labels batch_size pad_token) idxs acc
  = Ok acc' ->
  Forall (fun i => py_slice i (i + batch_size) sequences <> []) idxs
  /\ acc' = (fst acc ++ map (expected_x dev sequences batch_size pad_token) idxs,
              snd acc ++ map (expected_y dev labels batch_size) idxs).
Proof.
  revert acc. induction idxs as [|i idxs IH]; intros acc; simpl.
  - intros H. inversion H. rewrite !app_nil_r. by destruct acc'.
  - intros H. apply rbind_Ok in H. destruct H as (acc1 & H1 & H).
    apply batch_body_Ok in H1. destruct H1 as [Hne ->].
    apply IH in H. destruct H as [Hall ->]. simpl.
    rewrite <- !app_assoc. split; [by constructor | reflexivity].
Qed.

(** The result, when there is one, is a function of the indices. *)
Lemma batch_by_instances_Ok (batches_x : list tensor2) (batches_y : list tensor1) :
  batch_by_instances globals dev sequences labels batch_size pad_token
  = Ok (batches_x, batches_y) ->
  exists idxs,
    py_range 0 (len sequences) batch_size = Ok idxs
    /\ Forall (fun i => py_slice i (i + batch_size) sequences <> []) idxs
    /\ batches_x = map (expected_x dev sequences batch_size pad_token) idxs
    /\ batches_y = map (expected_y dev labels batch_size) idxs.
Proof.
  unfold batch_by_instances. intros H. apply rbind_Ok in H.
  destruct H as (idxs & Hr & H). apply for_each_batch_body in H.
  destruct H as [Hall H]. inversion H. subst. exists idxs. auto.
Qed.

End Bound.

(** ** Indices and slices of the loop *)

Lemma py_range_up (n b : Z) :
  0 < b ->
  py_range 0 n b = Ok (map (fun k => Z.of_nat k * b) (seq 0 (Z.to_nat (ceil_div n b)))).
Proof.
  intros Hb. unfold py_range, range_len, ceil_div.
  destruct (Z.eqb_spec b 0); [lia|].
  destruct (Z.ltb_spec 0 b); [|lia].
  rewrite Z.sub_0_r. reflexivity.
Qed.

Lemma ceil_div_bounds (n b : Z) :
  0 < b -> 0 <= n -> n <= ceil_div n b * b < n + b.
Proof.
  intros Hb Hn. unfold ceil_div.
  pose proof (Z.div_mod (n + b - 1) b ltac:(lia)) as Hd.
  pose proof (Z.mod_pos_bound (n + b - 1) b Hb) as Hm.
  nia.
Qed.

(** A slice with bounds in range is a [take] of a [drop]. *)
Lemma py_slice_take_drop {A} (l : list A) (i b : Z) :
  0 <= i -> 0 < b -> py_slice i (i + b) l = take (Z.to_nat b) (drop (Z.to_nat i) l).
Proof.
  intros Hi Hb. unfold py_slice, slice_index, len.
  destruct (Z.ltb_spec i 0); [lia|].
  destruct (Z.ltb_spec (i + b) 0); [lia|].
  destruct (Z_lt_le_dec i (Z.of_nat (length l))) as [Hlt|Hge].
  - rewrite (Z.min_l i) by lia.
    destruct (Z_le_gt_dec (i + b) (Z.of_nat (length l))).
    + rewrite (Z.min_l (i + b)) by lia. f_equal. lia.
    + rewrite (Z.min_r (i + b)) by lia.
      rewrite !take_ge; [reflexivity | |]; rewrite length_drop; lia.
  - rewrite (Z.min_r i), (Z.min_r (i + b)) by lia.
    rewrite !drop_ge by lia. by rewrite !take_nil.
Qed.

Lemma py_slice_nonempty {A} (l : list A) (i b : Z) :
  0 <= i < len l -> 0 < b -> py_slice i (i + b) l <> [].
Proof.
  unfold len. intros Hi Hb. rewrite py_slice_take_drop by lia.
  intros E. apply (f_equal length) in E.
  rewrite length_take, length_drop in E. simpl in E. lia.
Qed.

(** Cutting a list into chunks of [b] and gluing them gives the list. *)
Lemma chunks_concat {A} (b cnt : nat) (l : list A) :
  (length l <= cnt * b)%nat ->
  concat (map (fun k => take b (drop (k * b) l)) (seq 0 cnt)) = l.
Proof.
  revert l. induction cnt as [|cnt IH]; intros l Hl; simpl.
  - destruct l; [reflexivity | simpl in Hl; lia].
  - rewrite drop_0.
    transitivity (take b l ++ drop b l); [|apply take_drop]. f_equal.
    etransitivity; [|apply (IH (drop b l)); rewrite length_drop; lia].
    rewrite <- seq_shift, map_map. f_equal.
    apply map_ext. intros k. rewrite drop_drop; do 2 f_equal; lia.
Qed.

Lemma comprehension_map {A B} (f : A -> result B) (h : A -> B) (l : list A) :
  Forall (fun x => f x = Ok (h x)) l -> comprehension f l = Ok (map h l).
Proof.
  induction 1 as [|x l Hx _ IH]; simpl; [reflexivity|].
  rewrite Hx. simpl. rewrite IH. reflexivity.
Qed.

(** A slice is a run of the list: elements that follow one another in it. *)
Lemma py_slice_run {A} (l : list A) (start stop : Z) :
  exists before after, l = before ++ py_slice start stop l ++ after.
Proof.
  unfold py_slice.
  set (s := Z.to_nat (slice_index (len l) start)).
  set (k := Z.to_nat (_ - _)).
  exists (take s l), (drop k (drop s l)).
  by rewrite take_drop, take_drop.
Qed.

Lemma py_slice_subseteq {A} (l : list A) (start stop : Z) : py_slice start stop l ⊆ l.
Proof.
  unfold py_slice. intros x Hx.
  eapply subseteq_drop, subseteq_take, Hx.
Qed.

Lemma LongTensor_returns (l : list Z) :
  Forall (fun z => in_int64 z = true) l -> LongTensor l = Ok (Tensor1 "cpu" l).
Proof.
  intros H. unfold LongTensor.
  replace (forallb in_int64 l) with true; [reflexivity|].
  symmetry. apply forallb_forall. intros z Hz.
  rewrite Forall_forall in H. apply H, list_elem_of_In, Hz.
Qed.

Lemma stack_returns (d : device) (m : nat) (rows : list (list Z)) :
  rows <> [] -> Forall (fun r => length r = m) rows ->
  stack (map (Tensor1 d) rows) = Ok (Tensor2 d rows).
Proof.
  intros Hne Hall. destruct rows as [|r rows]; [contradiction|].
  assert (Hlen : forallb (fun u => length (data1 u) =? length r)%nat
                   (map (Tensor1 d) (r :: rows)) = true).
  { apply forallb_forall. intros u Hu. apply Nat.eqb_eq.
    apply in_map_iff in Hu. destruct Hu as (r' & <- & Hr'). simpl.
    rewrite Forall_forall in Hall.
    rewrite (Hall r') by (by apply list_elem_of_In).
    rewrite (Hall r) by left. reflexivity. }
  unfold stack. cbn [map device1 data1]. cbn [map data1] in Hlen. rewrite Hlen.
  f_equal. f_equal. f_equal. rewrite map_map. simpl. by rewrite map_id.
Qed.

Section BoundTotal.

Variable globals : gset string.
Hypothesis torch_bound : "torch"%string ∈ globals.
Variables (dev : device) (sequences : list (list Z)) (labels : list Z).
Variables (batch_size pad_token : Z).
Hypothesis batch_size_pos : 0 < batch_size.
Hypothesis sequences_int64 :
  Forall (Forall (fun z => in_int64 z = true)) sequences.
Hypothesis labels_int64 : Forall (fun z => in_int64 z = true) labels.
Hypothesis pad_token_int64 : in_int64 pad_token = true.

Lemma pad_to_int64 (m : Z) (seq : list Z) :
  Forall (fun z => in_int64 z = true) seq ->
  Forall (fun z => in_int64 z = true) (pad_to m pad_token seq).
Proof.
  intros H. unfold pad_to, py_repeat. apply Forall_app. split; [exact H|].
  by apply Forall_replicate.
Qed.

Lemma batch_body_returns (i : Z) (acc : list tensor2 * list tensor1) :
  0 <= i < len sequences ->
  batch_body globals dev sequences labels batch_size pad_token i acc
  = Ok (fst acc ++ [expected_x dev sequences batch_size pad_token i],
        snd acc ++ [expected_y dev labels batch_size i]).
Proof.
  intros Hi. unfold batch_body, expected_x, expected_y, batch_max_len.
  pose proof (py_slice_nonempty sequences i batch_size Hi batch_size_pos) as Hne.
  pose proof (py_slice_subseteq sequences i (i + batch_size)) as Hsub.
  set (batch_x := py_slice i (i + batch_size) sequences) in *.
  destruct (py_max_returns (map len batch_x)) as [m Hm].
  { intros E. apply map_eq_nil in E. contradiction. }
  rewrite Hm. simpl. rewrite (load_global_bound _ _ torch_bound). simpl.
  apply py_max_spec in Hm. destruct Hm as [Hle _].
  rewrite (comprehension_map _ (fun seq => Tensor1 dev (pad_to m pad_token seq))).
  2:{ apply Forall_forall. intros seq Hseq.
      unfold pad_to at 1.
      fold (pad_to m pad_token seq).
      rewrite LongTensor_returns; [reflexivity|].
      apply pad_to_int64.
      rewrite Forall_forall in sequences_int64. apply sequences_int64, Hsub, Hseq. }
  simpl. rewrite <- (map_map (pad_to m pad_token) (Tensor1 dev)).
  rewrite (stack_returns dev (Z.to_nat m)).
  - simpl. rewrite LongTensor_returns; [reflexivity|].
    eapply subseteq_Forall; [apply py_slice_subseteq | exact labels_int64].
  - intros E. apply map_eq_nil in E. contradiction.
  - apply Forall_fmap, Forall_forall. intros seq Hseq. simpl.
    assert (len seq <= m).
    { rewrite Forall_fmap, Forall_forall in Hle. apply Hle, Hseq. }
    pose proof (pad_to_length m pad_token seq H). unfold len in *. lia.
Qed.

Lemma for_each_batch_body_returns (idxs : list Z) (acc : list tensor2 * list tensor1) :
  Forall (fun i => 0 <= i < len sequences) idxs ->
  for_each (batch_body globals dev sequences labels batch_size pad_token) idxs acc
  = Ok (fst acc ++ map (expected_x dev sequences batch_size pad_token) idxs,
        snd acc ++ map (expected_y dev labels batch_size) idxs).
Proof.
  intros H. revert acc. induction H as [|i idxs Hi _ IH]; intros acc; simpl.
  - rewrite !app_nil_r. by destruct acc.
  - rewrite (batch_body_returns i acc Hi). simpl. rewrite IH. simpl.
    by rewrite <- !app_assoc.
Qed.

Lemma loop_indices_in_range :
  Forall (fun i => 0 <= i < len sequences)
    (map (fun k => Z.of_nat k * batch_size)
         (seq 0 (Z.to_nat (ceil_div (len sequences) batch_size)))).
Proof.
  apply Forall_fmap, Forall_forall. intros k Hk. simpl.
  apply elem_of_seq in Hk.
  assert (Hn : 0 <= len sequences) by (unfold len; lia).
  pose proof (ceil_div_bounds (len sequences) batch_size batch_size_pos Hn).
  nia.
Qed.

Lemma batch_by_instances_returns :
  batch_by_instances globals dev sequences labels batch_size pad_token
  = Ok (map (fun k => expected_x dev sequences batch_size pad_token (Z.of_nat k * batch_size))
            (seq 0 (Z.to_nat (ceil_div (len sequences) batch_size))),
        map (fun k => expected_y dev labels batch_size (Z.of_nat k * batch_size))
            (seq 0 (Z.to_nat (ceil_div (len sequences) batch_size)))).
Proof.
  unfold batch_by_instances. rewrite py_range_up by assumption. simpl.
  rewrite for_each_batch_body_returns by apply loop_indices_in_range.
  simpl. by rewrite !map_map.
Qed.

End BoundTotal.

(** ** Claims about [batch_by_instances] *)

(** C1 is about [ceil(n/b)] returned batches.  In the module as written
    the name [torch] is not bound, and line 102 reads it: for one sequence
    or more and a positive batch size the call raises [NameError] in its
    first iteration, and no batch is returned. *)
Theorem batch_by_instances_torch_unbound (dev : device) (sequences : list (list Z))
    (labels : list Z) (batch_size pad_token : Z) :
  sequences <> [] -> 0 < batch_size ->
  batch_by_instances utils_globals dev sequences labels batch_size pad_token
  = Raise (NameError "torch").
Proof. apply batch_by_instances_NameError, utils_globals_torch. Qed.

Lemma batch_by_instances_torch_unbound_witness :
  batch_by_instances utils_globals "cuda" [[5; 6; 7]; [8]; [9; 10]] [1; 0; 1] 2 0
  = Raise (NameError "torch").
Proof.
  apply (batch_by_instances_torch_unbound "cuda" [[5; 6; 7]; [8]; [9; 10]] [1; 0; 1] 2 0).
  - discriminate.
  - lia.
Defined.

(** C2 is about how each returned batch is padded.  On two sequences of
    different lengths the module as written pads nothing: it raises. *)
Theorem batch_by_instances_pads_nothing :
  batch_by_instances utils_globals "cpu" [[1]; [2; 3; 4]] [0; 1] 2 0
  = Raise (NameError "torch").
Proof. vm_compute. reflexivity. Qed.

(** C3 is the example of the specification.  The module as written raises
    on it. *)
Theorem batch_by_instances_spec_example :
  batch_by_instances utils_globals "cpu" [[1; 2]; [3]] [0; 1] 2 0
  = Raise (NameError "torch").
Proof. vm_compute. reflexivity. Qed.

(** C8 is about the order of rows and labels in the result.  On three
    labelled sequences in batches of two the module as written returns no
    result to read them from. *)
Theorem batch_by_instances_keeps_nothing :
  batch_by_instances utils_globals "cpu" [[4; 5]; [6]; [7; 8; 9]] [1; 0; 1] 2 0
  = Raise (NameError "torch").
Proof. vm_compute. reflexivity. Qed.

(** C10 as stated fails for a batch size of zero: [range] refuses the
    step before the loop starts. *)
Lemma batch_by_instances_empty_zero_step :
  batch_by_instances utils_globals "cpu" [] [] 0 0
  = Raise (ValueError "range() arg 3 must not be zero").
Proof. reflexivity. Qed.

(** C10, as the code has it.  For empty sequences and labels and a batch
    size other than zero, [batch_by_instances] returns two empty lists;
    the loop body does not run, so neither [max] nor [torch] is
    evaluated. *)
Theorem batch_by_instances_empty (globals : gset string) (dev : device)
    (batch_size pad_token : Z) :
  batch_size <> 0 ->
  batch_by_instances globals dev [] [] batch_size pad_token = Ok ([], []).
Proof.
  intros Hb. unfold batch_by_instances.
  rewrite py_range_empty; [reflexivity | assumption | reflexivity | by left].
Qed.

Lemma batch_by_instances_empty_witness :
  batch_by_instances utils_globals "cpu" [] [] 32 0 = Ok ([], []).
Proof. apply (batch_by_instances_empty utils_globals "cpu" 32 0). lia. Defined.

(** ** Further properties of [batch_by_instances] *)

(** In the module as written no call returns a batch. *)
Theorem batch_by_instances_returns_no_batch (dev : device) (sequences : list (list Z))
    (labels : list Z) (batch_size pad_token : Z)
    (batches_x : list tensor2) (batches_y : list tensor1) :
  batch_by_instances utils_globals dev sequences labels batch_size pad_token
  = Ok (batches_x, batches_y) ->
  batches_x = [] /\ batches_y = [].
Proof. apply batch_by_instances_no_batch, utils_globals_torch. Qed.

Lemma batch_by_instances_returns_no_batch_witness :
  @nil tensor2 = [] /\ @nil tensor1 = [].
Proof.
  apply (batch_by_instances_returns_no_batch "cpu" [[1]; [2; 3]] [0; 1] (-2) 0).
  vm_compute. reflexivity.
Defined.

(** With [torch] bound, 64-bit tokens and a positive batch size, the call
    for the device ["cpu"], which every process has, returns [ceil(n/b)]
    sequence batches and as many label batches. *)
Theorem batch_by_instances_bound_count (globals : gset string)
    (sequences : list (list Z)) (labels : list Z) (batch_size pad_token : Z) :
  "torch"%string ∈ globals ->
  0 < batch_size ->
  Forall (Forall (fun z => in_int64 z = true)) sequences ->
  Forall (fun z => in_int64 z = true) labels ->
  in_int64 pad_token = true ->
  exists (batches_x : list tensor2) (batches_y : list tensor1),
    batch_by_instances globals "cpu" sequences labels batch_size pad_token
    = Ok (batches_x, batches_y)
    /\ len batches_x = ceil_div (len sequences) batch_size
    /\ len batches_y = ceil_div (len sequences) batch_size.
Proof.
  intros Ht Hb Hs Hl Hp. do 2 eexists. split.
  - by apply batch_by_instances_returns.
  - assert (0 <= ceil_div (len sequences) batch_size).
    { unfold ceil_div. apply Z.div_pos; unfold len; lia. }
    unfold len in *. rewrite !length_map, !length_seq. lia.
Qed.

Lemma batch_by_instances_bound_count_witness :
  exists (batches_x : list tensor2) (batches_y : list tensor1),
    batch_by_instances globals_with_torch "cpu"
      [[1; 2]; [3]; [4; 5; 6]; []; [7]] [0; 1; 2; 3; 4] 2 9
    = Ok (batches_x, batches_y)
    /\ len batches_x = 3 /\ len batches_y = 3.
Proof.
  apply (batch_by_instances_bound_count globals_with_torch
           [[1; 2]; [3]; [4; 5; 6]; []; [7]] [0; 1; 2; 3; 4] 2 9).
  - apply globals_with_torch_torch.
  - lia.
  - repeat constructor.
  - repeat constructor.
  - reflexivity.
Defined.

(** Every returned batch is a non-empty run of the sequences, that is,
    sequences that follow one another in the input, in their order, each
    padded at its end with [pad_token] up to the largest length in that
    run. *)
Theorem batch_by_instances_bound_padded (globals : gset string) (dev : device)
    (sequences : list (list Z)) (labels : list Z) (batch_size pad_token : Z)
    (batches_x : list tensor2) (batches_y : list tensor1) :
  batch_by_instances globals dev sequences labels batch_size pad_token
  = Ok (batches_x, batches_y) ->
  Forall (fun t =>
            exists (before batch_x after : list (list Z)) (max_len : Z),
              sequences = before ++ batch_x ++ after
              /\ batch_x <> []
              /\ max_len ∈ map len batch_x
              /\ Forall (fun seq => len seq <= max_len) batch_x
              /\ Forall2 (fun seq row =>
                            row = seq ++ replicate (Z.to_nat (max_len - len seq)) pad_token
                            /\ len row = max_len)
                         batch_x (data2 t))
         batches_x.
Proof.
  intros H. apply batch_by_instances_Ok in H.
  destruct H as (idxs & _ & Hne & -> & _).
  apply Forall_fmap. eapply Forall_impl; [exact Hne|].
  intros i Hi. simpl.
  destruct (py_slice_run sequences i (i + batch_size)) as (before & after & Hrun).
  set (batch_x := py_slice i (i + batch_size) sequences) in *.
  exists before, batch_x, after, (batch_max_len batch_x).
  destruct (py_max_returns (map len batch_x)) as [m Hm].
  { intros E. apply map_eq_nil in E. contradiction. }
  unfold batch_max_len. rewrite Hm. apply py_max_spec in Hm. destruct Hm as [Hle Hin].
  rewrite Forall_fmap in Hle.
  repeat split; try assumption.
  - apply Forall2_fmap_r, Forall_Forall2_diag.
    eapply Forall_impl; [exact Hle|]. intros seq Hseq. simpl.
    split; [reflexivity | by apply pad_to_length].
Qed.

Lemma batch_by_instances_bound_padded_witness :
  Forall (fun t =>
            exists (before batch_x after : list (list Z)) (max_len : Z),
              [[1; 2]; [3]; [4; 5; 6]] = before ++ batch_x ++ after
              /\ batch_x <> []
              /\ max_len ∈ map len batch_x
              /\ Forall (fun seq => len seq <= max_len) batch_x
              /\ Forall2 (fun seq row =>
                            row = seq ++ replicate (Z.to_nat (max_len - len seq)) 9
                            /\ len row = max_len)
                         batch_x (data2 t))
         [Tensor2 "cpu" [[1; 2]; [3; 9]]; Tensor2 "cpu" [[4; 5; 6]]].
Proof.
  apply (batch_by_instances_bound_padded globals_with_torch "cpu"
           [[1; 2]; [3]; [4; 5; 6]] [0; 1; 2] 2 9 _
           [Tensor1 "cpu" [0; 1]; Tensor1 "cpu" [2]]).
  vm_compute. reflexivity.
Defined.

(** Rows and labels come back in the order they went in: row [j] of batch
    [i] starts with sequence [i * batch_size + j], and the label batches,
    glued, are the labels. *)
Theorem batch_by_instances_bound_order (globals : gset string) (dev : device)
    (sequences : list (list Z)) (labels : list Z) (batch_size pad_token : Z)
    (batches_x : list tensor2) (batches_y : list tensor1) :
  0 < batch_size ->
  batch_by_instances globals dev sequences labels batch_size pad_token
  = Ok (batches_x, batches_y) ->
  (forall (i j : nat) (t : tensor2) (row : list Z),
      batches_x !! i = Some t -> data2 t !! j = Some row ->
      exists seq, sequences !! (i * Z.to_nat batch_size + j)%nat = Some seq
                  /\ seq `prefix_of` row)
  /\ (length labels = length sequences -> concat (map data1 batches_y) = labels).
Proof.
  intros Hb H. apply batch_by_instances_Ok in H.
  destruct H as (idxs & Hr & _ & -> & ->).
  rewrite py_range_up in Hr by assumption. inversion Hr. subst idxs. clear Hr.
  split.
  - intros i j t row Ht Hrow.
    rewrite !list_lookup_fmap in Ht.
    destruct (seq 0 _ !! i) as [k|] eqn:Hk; [|discriminate].
    apply lookup_seq in Hk. destruct Hk as [-> _]. simpl in Ht.
    inversion Ht. subst t. clear Ht. simpl in Hrow.
    rewrite py_slice_take_drop in Hrow by lia.
    rewrite list_lookup_fmap in Hrow.
    destruct (take _ _ !! j) as [seq|] eqn:Hseq; [|discriminate].
    simpl in Hrow. inversion Hrow. subst row. clear Hrow.
    apply lookup_take_Some in Hseq. destruct Hseq as [Hseq _].
    rewrite lookup_drop in Hseq.
    exists seq. split.
    + rewrite <- Hseq. f_equal. lia.
    + unfold pad_to. by apply prefix_app_r.
  - intros Hlen. rewrite !map_map. simpl.
    assert (Hn : 0 <= len sequences) by (unfold len; lia).
    pose proof (ceil_div_bounds (len sequences) batch_size Hb Hn) as Hc.
    etransitivity;
      [|apply (chunks_concat (Z.to_nat batch_size)
                 (Z.to_nat (ceil_div (len sequences) batch_size)) labels);
        unfold len in *; nia].
    f_equal. apply map_ext. intros k.
    rewrite py_slice_take_drop by lia. do 2 f_equal; lia.
Qed.

Lemma batch_by_instances_bound_order_witness :
  (forall (i j : nat) (t : tensor2) (row : list Z),
      [Tensor2 "cpu" [[1; 2]; [3; 9]]; Tensor2 "cpu" [[4; 5; 6]]] !! i = Some t ->
      data2 t !! j = Some row ->
      exists seq, [[1; 2]; [3]; [4; 5; 6]] !! (i * Z.to_nat 2 + j)%nat = Some seq
                  /\ seq `prefix_of` row)
  /\ (length [0; 1; 2] = length [[1; 2]; [3]; [4; 5; 6]] ->
      concat (map data1 [Tensor1 "cpu" [0; 1]; Tensor1 "cpu" [2]]) = [0; 1; 2]).
Proof.
  apply (batch_by_instances_bound_order globals_with_torch "cpu"
           [[1; 2]; [3]; [4; 5; 6]] [0; 1; 2] 2 9).
  - lia.
  - vm_compute. reflexivity.
Defined.

(** With [torch] bound, the example of the specification gives one batch,
    [[1, 2], [3, 0]], with the labels [0, 1]. *)
Theorem batch_by_instances_bound_spec_example :
  batch_by_instances globals_with_torch "cpu" [[1; 2]; [3]] [0; 1] 2 0
  = Ok ([Tensor2 "cpu" [[1; 2]; [3; 0]]], [Tensor1 "cpu" [0; 1]]).
Proof. vm_compute. reflexivity. Qed.

(** * Further properties of [utils.py] *)

(** ** [create_data_loader] *)

(** The loop of [BatchSampler.__iter__] keeps full batches behind it and a
    shorter one in hand. *)
Lemma fold_batch_step (b : Z) (l : list nat) (ys : list (list nat)) (cur : list nat) :
  0 < b -> len cur < b ->
  exists zs cur',
    fold_left (batch_step b) l (ys, cur) = (ys ++ zs, cur')
    /\ Forall (fun z => len z = b) zs
    /\ len cur' < b
    /\ concat zs ++ cur' = cur ++ l.
Proof.
  intros Hb. revert ys cur. induction l as [|x l IH]; intros ys cur Hcur; simpl.
  - exists [], cur. rewrite !app_nil_r. repeat split; [constructor | assumption].
  - unfold batch_step at 2. simpl.
    destruct (Z.eqb_spec (len (cur ++ [x])) b) as [Hfull|Hnot].
    + destruct (IH (ys ++ [cur ++ [x]]) []) as (zs & cur' & Hf & Hzs & Hc & Hcat).
      { unfold len. simpl. lia. }
      exists ((cur ++ [x]) :: zs), cur'. rewrite Hf, <- app_assoc. simpl.
      repeat split; [by constructor | assumption |].
      rewrite <- !app_assoc. simpl. simpl in Hcat. by rewrite Hcat.
    + destruct (IH ys (cur ++ [x])) as (zs & cur' & Hf & Hzs & Hc & Hcat).
      { unfold len in *. rewrite length_app in *. simpl in *. lia. }
      exists zs, cur'. rewrite Hf. repeat split; try assumption.
      rewrite Hcat, <- app_assoc. reflexivity.
Qed.

Lemma ceil_div_small (n b : Z) : 0 < n < b -> ceil_div n b = 1.
Proof.
  intros H. unfold ceil_div. symmetry.
  apply (Z.div_unique (n + b - 1) b 1 (n - 1)); lia.
Qed.

Lemma ceil_div_zero (b : Z) : 0 < b -> ceil_div 0 b = 0.
Proof. intros H. unfold ceil_div. apply Z.div_small. lia. Qed.

Lemma ceil_div_add (n b : Z) : 0 < b -> ceil_div (b + n) b = 1 + ceil_div n b.
Proof.
  intros H. unfold ceil_div.
  replace (b + n + b - 1) with (1 * b + (n + b - 1)) by lia.
  rewrite Z.div_add_l by lia. reflexivity.
Qed.

Lemma ceil_div_nonneg (n b : Z) : 0 < b -> 0 <= n -> 0 <= ceil_div n b.
Proof. intros Hb Hn. unfold ceil_div. apply Z.div_pos; lia. Qed.

(** Full runs followed by a shorter rest are the [chunks] of what they
    make up. *)
Lemma chunks_unique {A} (b : Z) (zs : list (list A)) (cur l : list A) :
  0 < b ->
  Forall (fun z => len z = b) zs -> len cur < b -> concat zs ++ cur = l ->
  zs ++ (if 0 <? len cur then [cur] else []) = chunks b l.
Proof.
  intros Hb Hzs Hcur. revert l. induction Hzs as [|z zs Hz _ IH]; intros l Hl.
  - simpl in Hl. subst l. unfold chunks. simpl.
    destruct (Z.ltb_spec 0 (len cur)) as [Hpos|Hzero].
    + rewrite ceil_div_small by lia. simpl. unfold chunk. simpl.
      rewrite drop_0, take_ge by (unfold len in *; lia). reflexivity.
    + destruct cur; [|unfold len in Hzero; simpl in Hzero; lia].
      by rewrite ceil_div_zero.
  - simpl in Hl. rewrite <- app_assoc in Hl. subst l. simpl.
    rewrite (IH _ eq_refl). unfold chunks.
    set (l' := concat zs ++ cur).
    assert (Hlen : len (z ++ l') = b + len l')
      by (unfold len in *; rewrite length_app; lia).
    rewrite Hlen, ceil_div_add by assumption.
    assert (0 <= ceil_div (len l') b)
      by (apply ceil_div_nonneg; unfold len; lia).
    rewrite Z2Nat.inj_add by lia. change (Z.to_nat 1) with 1%nat. simpl.
    f_equal.
    + unfold chunk. simpl. rewrite drop_0, take_app_length' by (unfold len in *; lia).
      reflexivity.
    + rewrite <- seq_shift, map_map. apply map_ext. intros k. unfold chunk.
      f_equal. replace (S k * Z.to_nat b)%nat with (length z + k * Z.to_nat b)%nat
        by (unfold len in *; lia).
      by rewrite drop_app_add.
Qed.

(** What [list(BatchSampler(sampler, b, False))] is. *)
Lemma batch_sampler_iter_chunks (sampler : list nat) (b : Z) :
  0 < b <= sys_maxsize ->
  batch_sampler_iter {| bs_sampler := sampler; bs_batch_size := b; bs_drop_last := false |}
  = Ok (chunks b sampler).
Proof.
  intros [Hb Hmax]. unfold batch_sampler_iter. simpl.
  destruct (Z.ltb_spec sys_maxsize b); [lia|]. f_equal.
  destruct (fold_batch_step b sampler [] [] Hb) as (zs & cur & Hf & Hzs & Hcur & Hcat).
  { unfold len. simpl. lia. }
  rewrite Hf. simpl. rewrite andb_true_r.
  rewrite <- (chunks_unique b zs cur sampler Hb Hzs Hcur Hcat).
  destruct (0 <? len cur); [reflexivity | by rewrite app_nil_r].
Qed.

Lemma comprehension_fmap {A B C} (f : B -> result C) (g : A -> B) (l : list A) :
  comprehension f (map g l) = comprehension (fun x => f (g x)) l.
Proof. induction l as [|x l IH]; simpl; [reflexivity | by rewrite IH]. Qed.

Lemma comprehension_ext {A B} (f g : A -> result B) (l : list A) :
  (forall x, x ∈ l -> f x = g x) -> comprehension f l = comprehension g l.
Proof.
  induction l as [|x l IH]; intros H; simpl; [reflexivity|].
  rewrite (H x) by left. rewrite IH; [reflexivity|].
  intros y Hy. apply H. by right.
Qed.

Lemma comprehension_length {A B} (f : A -> result B) (l : list A) (ys : list B) :
  comprehension f l = Ok ys -> length ys = length l.
Proof. rewrite comprehension_Ok. intros H. symmetry. by eapply Forall2_length. Qed.

(** Fetching a run of consecutive indices gives that run of the dataset. *)
Lemma fetch_seq {A} (dataset : list A) (i m : nat) :
  (0 < m -> i + m <= length dataset)%nat ->
  fetch dataset (seq i m) = Ok (take m (drop i dataset)).
Proof.
  unfold fetch. revert i. induction m as [|m IH]; intros i Hi; simpl.
  - reflexivity.
  - destruct (lookup_lt_is_Some_2 dataset i) as [x Hx]; [lia|].
    rewrite Hx. simpl. rewrite IH by lia. simpl.
    rewrite (drop_S dataset x i Hx). reflexivity.
Qed.

Lemma fetch_chunk {A} (dataset : list A) (b k : nat) :
  fetch dataset (chunk b (seq 0 (length dataset)) k) = Ok (chunk b dataset k).
Proof.
  unfold chunk. rewrite drop_seq, take_seq. simpl.
  rewrite fetch_seq by lia. f_equal.
  destruct (Nat.le_gt_cases b (length dataset - k * b)) as [Hle|Hgt].
  - by rewrite Nat.min_l.
  - rewrite Nat.min_r by lia.
    rewrite !take_ge; [reflexivity| |]; rewrite length_drop; lia.
Qed.

(** A run of [chunks] is the slice that [batch_by_instances] takes at the
    same index. *)
Lemma chunk_py_slice {A} (l : list A) (b : Z) (k : nat) :
  0 < b ->
  chunk (Z.to_nat b) l k = py_slice (Z.of_nat k * b) (Z.of_nat k * b + b) l.
Proof.
  intros Hb. rewrite py_slice_take_drop by lia. unfold chunk. do 2 f_equal. lia.
Qed.

Lemma chunks_length {A} (l : list A) (b : Z) :
  0 < b -> len (chunks b l) = ceil_div (len l) b.
Proof.
  intros Hb. unfold chunks, len. rewrite length_map, length_seq.
  pose proof (ceil_div_nonneg (Z.of_nat (length l)) b Hb ltac:(lia)). lia.
Qed.

Lemma chunks_concat_all {A} (l : list A) (b : Z) : 0 < b -> concat (chunks b l) = l.
Proof.
  intros Hb. unfold chunks. apply chunks_concat.
  pose proof (ceil_div_bounds (len l) b Hb ltac:(unfold len; lia)).
  unfold len in *. nia.
Qed.

(** Every run holds between one and [b] elements, and every run but the
    last holds [b]. *)
Lemma chunks_shape {A} (l : list A) (b : Z) :
  0 < b ->
  Forall (fun c => 1 <= len c <= b) (chunks b l)
  /\ (forall (i : nat) (c : list A),
        chunks b l !! i = Some c -> (S i < length (chunks b l))%nat -> len c = b).
Proof.
  intros Hb.
  pose proof (ceil_div_bounds (len l) b Hb ltac:(unfold len; lia)) as Hc.
  assert (Hn : 0 <= ceil_div (len l) b) by (apply ceil_div_nonneg; unfold len; lia).
  split.
  - unfold chunks. apply Forall_fmap, Forall_forall. intros k Hk. simpl.
    apply elem_of_seq in Hk. unfold chunk, len in *.
    rewrite length_take, length_drop. nia.
  - intros i c Hi Hlast. unfold chunks in *.
    rewrite length_map, length_seq in Hlast.
    rewrite list_lookup_fmap in Hi.
    destruct (seq 0 _ !! i) as [k|] eqn:Hk; [|discriminate].
    apply lookup_seq in Hk. destruct Hk as [-> _]. simpl in Hi.
    inversion Hi. subst c. unfold chunk, len in *.
    rewrite length_take, length_drop. nia.
Qed.

Lemma create_data_loader_Ok {A B} (dataset : list A) (batch_size : Z)
    (collate_fn : list A -> result B) (loader : data_loader A B) :
  create_data_loader dataset batch_size collate_fn = Ok loader <->
  0 < batch_size
  /\ loader = DataLoader dataset
                {| bs_sampler := SequentialSampler dataset;
                   bs_batch_size := batch_size; bs_drop_last := false |}
                collate_fn.
Proof.
  unfold create_data_loader, BatchSampler.
  destruct (Z.leb_spec batch_size 0); simpl; split.
  - discriminate.
  - intros [H' _]. lia.
  - intros H'. inversion H'. split; [lia | reflexivity].
  - intros [_ ->]. reflexivity.
Qed.

Lemma loader_iter_chunks {A B} (dataset : list A) (batch_size : Z)
    (collate_fn : list A -> result B) :
  0 < batch_size <= sys_maxsize ->
  loader_iter (DataLoader dataset
                 {| bs_sampler := SequentialSampler dataset;
                    bs_batch_size := batch_size; bs_drop_last := false |}
                 collate_fn)
  = comprehension collate_fn (chunks batch_size dataset).
Proof.
  intros Hb. unfold loader_iter. simpl.
  rewrite batch_sampler_iter_chunks by assumption. simpl.
  unfold chunks, SequentialSampler, len. rewrite length_seq.
  rewrite !comprehension_fmap. apply comprehension_ext. intros k _.
  by rewrite fetch_chunk.
Qed.

(** For a positive batch size [create_data_loader] returns a loader of
    length [ceil(n/b)].  For a batch size up to [sys.maxsize], iterating
    the loader collates, in order, the slices [dataset[k*b : k*b + b]] for
    [k] below that length; for a larger one the iteration raises a
    [ValueError], whatever the dataset. *)
Theorem create_data_loader_batches {A B} (dataset : list A) (batch_size : Z)
    (collate_fn : list A -> result B) :
  0 < batch_size ->
  exists loader,
    create_data_loader dataset batch_size collate_fn = Ok loader
    /\ loader_len loader = ceil_div (len dataset) batch_size
    /\ (batch_size <= sys_maxsize ->
        loader_iter loader
        = comprehension collate_fn
            (map (fun k => py_slice (Z.of_nat k * batch_size)
                             (Z.of_nat k * batch_size + batch_size) dataset)
                 (seq 0 (Z.to_nat (ceil_div (len dataset) batch_size)))))
    /\ (sys_maxsize < batch_size ->
        exists msg, loader_iter loader = Raise (ValueError msg)).
Proof.
  intros Hb. eexists. split; [|split; [|split]].
  - apply create_data_loader_Ok. split; [assumption | reflexivity].
  - unfold loader_len, batch_sampler_len, SequentialSampler, ceil_div, len. simpl.
    by rewrite length_seq.
  - intros Hmax. rewrite loader_iter_chunks by lia. unfold chunks. f_equal.
    apply map_ext. intros k. by apply chunk_py_slice.
  - intros Hmax. unfold loader_iter, batch_sampler_iter. simpl.
    destruct (Z.ltb_spec sys_maxsize batch_size); [|lia]. by eexists.
Qed.

Lemma create_data_loader_batches_witness :
  exists loader,
    create_data_loader [10; 11; 12; 13; 14] 2 (fun batch : list Z => Ok (rev batch))
    = Ok loader
    /\ loader_len loader = ceil_div (len [10; 11; 12; 13; 14]) 2
    /\ (2 <= sys_maxsize ->
        loader_iter loader
        = comprehension (fun batch : list Z => Ok (rev batch))
            (map (fun k => py_slice (Z.of_nat k * 2) (Z.of_nat k * 2 + 2)
                             [10; 11; 12; 13; 14])
                 (seq 0 (Z.to_nat (ceil_div (len [10; 11; 12; 13; 14]) 2)))))
    /\ (sys_maxsize < 2 ->
        exists msg, loader_iter loader = Raise (ValueError msg)).
Proof.
  apply (create_data_loader_batches [10; 11; 12; 13; 14] 2
           (fun batch : list Z => Ok (rev batch))).
  lia.
Defined.

(** A loader that can be iterated has a batch size that [islice] takes. *)
Lemma loader_iter_maxsize {A B} (loader : data_loader A B) (batches : list B) :
  loader_iter loader = Ok batches -> bs_batch_size (dl_batch_sampler loader) <= sys_maxsize.
Proof.
  unfold loader_iter, batch_sampler_iter.
  destruct (Z.ltb_spec sys_maxsize (bs_batch_size (dl_batch_sampler loader)));
    [discriminate | intros _; lia].
Qed.

(** With a collate function that returns the batch as it is, the batches
    of the loader, glued in order, are the dataset: nothing is dropped or
    repeated.  There are [len(loader)] of them, each holds between one and
    [batch_size] instances, and each but the last holds [batch_size]. *)
Theorem create_data_loader_covers {A} (dataset : list A) (batch_size : Z)
    (loader : data_loader A (list A)) (batches : list (list A)) :
  create_data_loader dataset batch_size (fun batch => Ok batch) = Ok loader ->
  loader_iter loader = Ok batches ->
  concat batches = dataset
  /\ len batches = loader_len loader
  /\ Forall (fun batch => 1 <= len batch <= batch_size) batches
  /\ (forall (i : nat) (batch : list A),
        batches !! i = Some batch -> (S i < length batches)%nat ->
        len batch = batch_size).
Proof.
  intros Hc Hi. apply create_data_loader_Ok in Hc. destruct Hc as [Hb ->].
  pose proof (loader_iter_maxsize _ _ Hi) as Hmax. simpl in Hmax.
  rewrite loader_iter_chunks in Hi by lia.
  rewrite (comprehension_map _ (fun batch => batch)) in Hi
    by (apply Forall_forall; reflexivity).
  rewrite map_id in Hi. inversion Hi. subst batches. clear Hi.
  destruct (chunks_shape dataset batch_size Hb) as [Hs1 Hs2].
  split; [|split; [|split]].
  - by apply chunks_concat_all.
  - rewrite chunks_length by assumption.
    unfold loader_len, batch_sampler_len, SequentialSampler, ceil_div, len. simpl.
    by rewrite length_seq.
  - exact Hs1.
  - exact Hs2.
Qed.

Lemma create_data_loader_covers_witness :
  concat [[10; 11]; [12; 13]; [14]] = [10; 11; 12; 13; 14]
  /\ len [[10; 11]; [12; 13]; [14]]
     = loader_len (DataLoader [10; 11; 12; 13; 14]
                     {| bs_sampler := [0; 1; 2; 3; 4]%nat; bs_batch_size := 2;
                        bs_drop_last := false |}
                     (fun batch : list Z => Ok batch))
  /\ Forall (fun batch => 1 <= len batch <= 2) [[10; 11]; [12; 13]; [14]]
  /\ (forall (i : nat) (batch : list Z),
        [[10; 11]; [12; 13]; [14]] !! i = Some batch ->
        (S i < 3)%nat ->
        len batch = 2).
Proof.
  apply (create_data_loader_covers [10; 11; 12; 13; 14] 2).
  - reflexivity.
  - vm_compute. reflexivity.
Defined.

(** ** [create_data_loader] with [batch_by_instances] and [init_schedule] *)

Lemma batch_sampler_iter_length {A B} (dataset : list A) (batch_size : Z)
    (collate_fn : list A -> result B) (loader : data_loader A B)
    (batches : list (list nat)) :
  create_data_loader dataset batch_size collate_fn = Ok loader ->
  batch_sampler_iter (dl_batch_sampler loader) = Ok batches ->
  len batches = ceil_div (len dataset) batch_size.
Proof.
  intros Hc Hi. apply create_data_loader_Ok in Hc. destruct Hc as [Hb ->].
  simpl in Hi.
  assert (Hmax : batch_size <= sys_maxsize).
  { revert Hi. unfold batch_sampler_iter. simpl.
    destruct (Z.ltb_spec sys_maxsize batch_size); [discriminate | intros _; lia]. }
  rewrite batch_sampler_iter_chunks in Hi by lia. inversion Hi.
  rewrite chunks_length by assumption.
  unfold SequentialSampler, len. by rewrite length_seq.
Qed.

(** [batch_by_instances] groups the sequences as a loader of the same batch
    size does: its [k]-th batch is the loader's [k]-th batch, padded. *)
Theorem batch_by_instances_groups_as_loader (globals : gset string) (dev : device)
    (sequences : list (list Z)) (labels : list Z) (batch_size pad_token : Z)
    (batches_x : list tensor2) (batches_y : list tensor1)
    (loader : data_loader (list Z) (list (list Z))) (groups : list (list (list Z))) :
  batch_by_instances globals dev sequences labels batch_size pad_token
  = Ok (batches_x, batches_y) ->
  create_data_loader sequences batch_size (fun batch => Ok batch) = Ok loader ->
  loader_iter loader = Ok groups ->
  Forall2 (fun group t => data2 t = map (pad_to (batch_max_len group) pad_token) group)
          groups batches_x.
Proof.
  intros Hb Hc Hi. apply create_data_loader_Ok in Hc. destruct Hc as [Hpos ->].
  pose proof (loader_iter_maxsize _ _ Hi) as Hmax. simpl in Hmax.
  rewrite loader_iter_chunks in Hi by lia.
  rewrite (comprehension_map _ (fun batch => batch)) in Hi
    by (apply Forall_forall; reflexivity).
  rewrite map_id in Hi. inversion Hi. subst groups. clear Hi.
  apply batch_by_instances_Ok in Hb. destruct Hb as (idxs & Hr & _ & -> & _).
  rewrite py_range_up in Hr by assumption. inversion Hr. subst idxs. clear Hr.
  unfold chunks. rewrite map_map.
  apply Forall2_fmap, Forall_Forall2_diag, Forall_forall. intros k _. simpl.
  by rewrite <- chunk_py_slice.
Qed.

Lemma batch_by_instances_groups_as_loader_witness :
  Forall2 (fun group t => data2 t = map (pad_to (batch_max_len group) 9) group)
          [[[1; 2]; [3]]; [[4; 5; 6]]]
          [Tensor2 "cpu" [[1; 2]; [3; 9]]; Tensor2 "cpu" [[4; 5; 6]]].
Proof.
  apply (batch_by_instances_groups_as_loader globals_with_torch "cpu"
           [[1; 2]; [3]; [4; 5; 6]] [0; 1; 2] 2 9 _
           [Tensor1 "cpu" [0; 1]; Tensor1 "cpu" [2]]
           (DataLoader [[1; 2]; [3]; [4; 5; 6]]
              {| bs_sampler := [0; 1; 2]%nat; bs_batch_size := 2;
                 bs_drop_last := false |}
              (fun batch => Ok batch))).
  - vm_compute. reflexivity.
  - reflexivity.
  - vm_compute. reflexivity.
Defined.

(** A loader made by [create_data_loader] from [n] instances has
    [ceil(n/b)] batches.  With the list of its batches as [train_loader],
    [init_schedule] plans ["linear"] and ["onecycle"] over
    [ceil(n/b) * epochs] steps: it returns those schedulers when the
    library accepts the arguments, and raises a [ValueError] when
    [LinearLR] refuses the factors or the number of steps is not positive,
    as it is for an empty dataset. *)
Theorem init_schedule_on_loader {optimizer A B : Type} `{Optimizer optimizer}
    (float_pow : float -> float -> result float) (opt : optimizer)
    (dataset : list A) (batch_size : Z) (collate_fn : list A -> result B)
    (loader : data_loader A B) (train_loader : list (list nat))
    (lr : float) (epochs emb_dim : Z) :
  create_data_loader dataset batch_size collate_fn = Ok loader ->
  batch_sampler_iter (dl_batch_sampler loader) = Ok train_loader ->
  let steps := ceil_div (len dataset) batch_size * epochs in
  len train_loader = loader_len loader
  /\ loader_len loader = ceil_div (len dataset) batch_size
  /\ (linear_factors_ok lr = true ->
      init_schedule float_pow opt "linear" train_loader lr epochs emb_dim
      = Ok (LinearLR opt (lr / 5) lr steps))
  /\ (linear_factors_ok lr = false ->
      exists msg,
        init_schedule float_pow opt "linear" train_loader lr epochs emb_dim
        = Raise (ValueError msg))
  /\ (0 < steps -> returns (float_of_int steps) -> momentum_or_betas opt = true ->
      init_schedule float_pow opt "onecycle" train_loader lr epochs emb_dim
      = Ok (OneCycleLR opt lr steps 0.3 "linear"))
  /\ (steps <= 0 ->
      exists msg,
        init_schedule float_pow opt "onecycle" train_loader lr epochs emb_dim
        = Raise (ValueError msg))
  /\ (dataset = [] -> steps = 0).
Proof.
  intros Hc Hi steps.
  pose proof (batch_sampler_iter_length _ _ _ _ _ Hc Hi) as Hlen.
  apply create_data_loader_Ok in Hc. destruct Hc as [Hb ->].
  assert (Hll : loader_len
                  (DataLoader dataset
                     {| bs_sampler := SequentialSampler dataset;
                        bs_batch_size := batch_size; bs_drop_last := false |}
                     collate_fn)
                = ceil_div (len dataset) batch_size).
  { unfold loader_len, batch_sampler_len, SequentialSampler, ceil_div, len. simpl.
    by rewrite length_seq. }
  split; [|split; [|split; [|split; [|split; [|split]]]]].
  - by rewrite Hlen, Hll.
  - exact Hll.
  - intros Hok. rewrite init_schedule_linear, Hok, Hlen. reflexivity.
  - intros Hok. rewrite init_schedule_linear, Hok.
    destruct (_ || _); by eexists.
  - intros Hpos [x Hx] Hm. unfold init_schedule, OneCycleLR_init. simpl.
    rewrite Hlen. fold steps.
    destruct (Z.leb_spec steps 0); [lia|].
    rewrite Hx, Hm. reflexivity.
  - intros Hle. unfold init_schedule, OneCycleLR_init. simpl.
    rewrite Hlen. fold steps.
    destruct (Z.leb_spec steps 0); [by eexists | lia].
  - intros ->. unfold steps. by rewrite ceil_div_zero.
Qed.

Lemma init_schedule_on_loader_witness :
  let steps := ceil_div (len [10; 11; 12; 13; 14]) 2 * 4 in
  let loader :=
    DataLoader [10; 11; 12; 13; 14]
      {| bs_sampler := [0; 1; 2; 3; 4]%nat; bs_batch_size := 2; bs_drop_last := false |}
      (fun batch : list Z => Ok batch) in
  let train_loader := [[0; 1]; [2; 3]; [4]]%nat in
  len train_loader = loader_len loader
  /\ loader_len loader = ceil_div (len [10; 11; 12; 13; 14]) 2
  /\ (linear_factors_ok 0.5 = true ->
      init_schedule example_pow SGD "linear" train_loader 0.5 4 512
      = Ok (LinearLR SGD (0.5 / 5) 0.5 steps))
  /\ (linear_factors_ok 0.5 = false ->
      exists msg,
        init_schedule example_pow SGD "linear" train_loader 0.5 4 512
        = Raise (ValueError msg))
  /\ (0 < steps -> returns (float_of_int steps) -> momentum_or_betas SGD = true ->
      init_schedule example_pow SGD "onecycle" train_loader 0.5 4 512
      = Ok (OneCycleLR SGD 0.5 steps 0.3 "linear"))
  /\ (steps <= 0 ->
      exists msg,
        init_schedule example_pow SGD "onecycle" train_loader 0.5 4 512
        = Raise (ValueError msg))
  /\ ([10; 11; 12; 13; 14] = [] -> steps = 0).
Proof.
  apply (init_schedule_on_loader example_pow SGD [10; 11; 12; 13; 14] 2
           (fun batch : list Z => Ok batch)).
  - reflexivity.
  - reflexivity.
Defined.

(** ** More on [batch_by_instances] *)

(** A batch size of zero is refused by [range] whatever the input; a
    negative one makes the loop run no iteration, so the call returns two
    empty lists and every sequence is left out.  Neither reads [torch]. *)
Theorem batch_by_instances_nonpositive (globals : gset string) (dev : device)
    (sequences : list (list Z)) (labels : list Z) (batch_size pad_token : Z) :
  batch_size <= 0 ->
  batch_by_instances globals dev sequences labels batch_size pad_token
  = if batch_size =? 0
    then Raise (ValueError "range() arg 3 must not be zero")
    else Ok ([], []).
Proof.
  intros Hb. unfold batch_by_instances.
  destruct (Z.eqb_spec batch_size 0) as [->|Hne]; [reflexivity|].
  rewrite py_range_empty; [reflexivity | assumption | unfold len; lia | right; lia].
Qed.

Lemma batch_by_instances_nonpositive_witness :
  batch_by_instances utils_globals "cpu" [[1; 2]; [3]] [0; 1] (-2) 0 = Ok ([], []).
Proof.
  apply (batch_by_instances_nonpositive utils_globals "cpu" [[1; 2]; [3]] [0; 1] (-2) 0).
  lia.
Defined.

Lemma expected_x_rows (dev : device) (sequences : list (list Z))
    (batch_size pad_token : Z) (k : nat) :
  0 < batch_size ->
  length (data2 (expected_x dev sequences batch_size pad_token (Z.of_nat k * batch_size)))
  = length (chunk (Z.to_nat batch_size) sequences k).
Proof.
  intros Hb. unfold expected_x. simpl.
  by rewrite length_map, <- chunk_py_slice.
Qed.

(** Every returned tensor is on the requested device; every sequence batch
    holds between one and [batch_size] rows, and [batch_size] rows unless
    it is the last; and for as many labels as sequences each label batch
    holds one label per row. *)
Theorem batch_by_instances_bound_shapes (globals : gset string) (dev : device)
    (sequences : list (list Z)) (labels : list Z) (batch_size pad_token : Z)
    (batches_x : list tensor2) (batches_y : list tensor1) :
  0 < batch_size ->
  batch_by_instances globals dev sequences labels batch_size pad_token
  = Ok (batches_x, batches_y) ->
  Forall (fun t => device2 t = dev /\ 1 <= len (data2 t) <= batch_size) batches_x
  /\ Forall (fun t => device1 t = dev) batches_y
  /\ (forall (i : nat) (t : tensor2),
        batches_x !! i = Some t -> (S i < length batches_x)%nat ->
        len (data2 t) = batch_size)
  /\ (length labels = length sequences ->
      Forall2 (fun tx ty => length (data2 tx) = length (data1 ty)) batches_x batches_y).
Proof.
  intros Hb H. apply batch_by_instances_Ok in H.
  destruct H as (idxs & Hr & _ & -> & ->).
  rewrite py_range_up in Hr by assumption. inversion Hr. subst idxs. clear Hr.
  destruct (chunks_shape sequences batch_size Hb) as [Hs1 Hs2].
  unfold chunks in Hs1, Hs2. rewrite Forall_fmap, Forall_forall in Hs1.
  rewrite !map_map. split; [|split; [|split]].
  - apply Forall_fmap, Forall_forall. intros k Hk. simpl. split; [reflexivity|].
    specialize (Hs1 k Hk). simpl in Hs1. unfold len in *.
    rewrite length_map, <- chunk_py_slice by assumption. exact Hs1.
  - apply Forall_fmap, Forall_forall. intros k _. reflexivity.
  - intros i t Ht Hlast. rewrite length_map in Hlast.
    rewrite list_lookup_fmap in Ht.
    destruct (seq 0 _ !! i) as [k|] eqn:Hk; [|discriminate].
    simpl in Ht. inversion Ht. subst t. clear Ht.
    unfold len. rewrite expected_x_rows by assumption.
    apply (Hs2 i).
    + by rewrite list_lookup_fmap, Hk.
    + by rewrite length_map.
  - intros Hlen. apply Forall2_fmap, Forall_Forall2_diag, Forall_forall.
    intros k _. simpl. rewrite length_map, !py_slice_take_drop by lia.
    rewrite !length_take, !length_drop. lia.
Qed.

Lemma batch_by_instances_bound_shapes_witness :
  Forall (fun t => device2 t = "cuda"%string /\ 1 <= len (data2 t) <= 2)
         [Tensor2 "cuda" [[1; 2]; [3; 9]]; Tensor2 "cuda" [[4; 5; 6]]]
  /\ Forall (fun t => device1 t = "cuda"%string)
            [Tensor1 "cuda" [0; 1]; Tensor1 "cuda" [2]]
  /\ (forall (i : nat) (t : tensor2),
        [Tensor2 "cuda" [[1; 2]; [3; 9]]; Tensor2 "cuda" [[4; 5; 6]]] !! i = Some t ->
        (S i < 2)%nat ->
        len (data2 t) = 2)
  /\ (length [0; 1; 2] = length [[1; 2]; [3]; [4; 5; 6]] ->
      Forall2 (fun tx ty => length (data2 tx) = length (data1 ty))
              [Tensor2 "cuda" [[1; 2]; [3; 9]]; Tensor2 "cuda" [[4; 5; 6]]]
              [Tensor1 "cuda" [0; 1]; Tensor1 "cuda" [2]]).
Proof.
  apply (batch_by_instances_bound_shapes globals_with_torch "cuda"
           [[1; 2]; [3]; [4; 5; 6]] [0; 1; 2] 2 9).
  - lia.
  - vm_compute. reflexivity.
Defined.

(** ** More on [split_data] and [load_reddit] *)

(** On an empty dataset [split_data] draws no random number and returns
    three empty partitions, unless [1 - train_split] is zero: then line 53
    divides by zero. *)
Theorem split_data_empty (rng : Type) (permutation : nat -> rng -> list nat * rng)
    {A} (train_split val_split : float) (g : rng) :
  split_data rng permutation (@nil A) train_split val_split g
  = if is_zero (1 - train_split)
    then Raise (ZeroDivisionError "float division by zero")
    else Ok (([], [], []), g).
Proof.
  unfold split_data, shuffle, train_test_split, flatten_indices, bind, ret, lift, py_div.
  simpl. destruct (is_zero (1 - train_split)); reflexivity.
Qed.

Section RedditProperties.

Variable rng : Type.
Variable permutation : nat -> rng -> list nat * rng.
Variable load_dataset : string -> string -> result (gmap string (list raw_row)).
Variables (train_split val_split : float) (min_len : Z).

(** Where [load_reddit] gets the dataset it splits. *)
Lemma load_reddit_sources (g g' : rng) (tr va te : list instance_len) :
  load_reddit rng permutation load_dataset train_split val_split min_len g
  = Ok ((tr, va, te), g') ->
  exists (dd_short dd_long : gmap string (list raw_row)) (short long : list raw_row)
         (tr0 va0 te0 : list instance_len) (g0 : rng),
    load_dataset "reddit_tifu" "short" = Ok dd_short
    /\ load_dataset "reddit_tifu" "long" = Ok dd_long
    /\ dd_short !! "train"%string = Some short
    /\ dd_long !! "train"%string = Some long
    /\ split_data rng permutation
         (add_doc_len <$> List.filter (long_enough min_len)
                            (map short_columns short ++ map long_columns long))
         train_split val_split g0
       = Ok ((tr0, va0, te0), g')
    /\ tr = sort doc_len tr0 /\ va = sort doc_len va0 /\ te = sort doc_len te0.
Proof.
  unfold load_reddit. intros H. inv_M H.
  destruct a3 as [[tr0 va0] te0].
  apply ret_Ok in H. destruct H as [H ->]. inversion H; subst. clear H.
  apply lift_Ok in H0, H1, H2, H3.
  destruct H0 as [Hs ->], H1 as [Hl ->], H2 as [Hgs ->], H3 as [Hgl ->].
  unfold getitem in Hgs, Hgl. rewrite lookup_fmap in Hgs, Hgl.
  destruct (a !! "train"%string) as [short|] eqn:Hshort; [|discriminate].
  destruct (a0 !! "train"%string) as [long|] eqn:Hlong; [|discriminate].
  simpl in Hgs, Hgl. inversion Hgs. inversion Hgl. subst. clear Hgs Hgl.
  unfold concatenate_datasets in H4. simpl in H4. rewrite app_nil_r in H4.
  exists a, a0, short, long, tr0, va0, te0, g. repeat split; assumption.
Qed.

End RedditProperties.

(** [load_reddit] loses no row that passes the filter and returns none
    twice: the three partitions together are, in some order, the rows of
    the two train tables that pass the filter, the short ones with their
    title as summary, the long ones with their tldr. *)
Theorem load_reddit_complete (rng : Type) (permutation : nat -> rng -> list nat * rng)
    (permutation_spec : forall n g, fst (permutation n g) ≡ₚ seq 0 n)
    (load_dataset : string -> string -> result (gmap string (list raw_row)))
    (train_split val_split : float) (min_len : Z) (g g' : rng)
    (tr va te : list instance_len) :
  load_reddit rng permutation load_dataset train_split val_split min_len g
  = Ok ((tr, va, te), g') ->
  exists (dd_short dd_long : gmap string (list raw_row)) (short long : list raw_row),
    load_dataset "reddit_tifu" "short" = Ok dd_short
    /\ load_dataset "reddit_tifu" "long" = Ok dd_long
    /\ dd_short !! "train"%string = Some short
    /\ dd_long !! "train"%string = Some long
    /\ tr ++ va ++ te
       ≡ₚ add_doc_len <$> List.filter (long_enough min_len)
                            (map short_columns short ++ map long_columns long).
Proof.
  intros H. apply load_reddit_sources in H.
  destruct H as (dd_s & dd_l & short & long & tr0 & va0 & te0 & g0
                 & Hs & Hl & Hshort & Hlong & Hsplit & -> & -> & ->).
  exists dd_s, dd_l, short, long. repeat split; try assumption.
  rewrite !sort_Permutation.
  by eapply split_data_Permutation.
Qed.

Lemma load_reddit_complete_witness :
  exists (dd_short dd_long : gmap string (list raw_row)) (short long : list raw_row),
    example_hub "reddit_tifu" "short" = Ok dd_short
    /\ example_hub "reddit_tifu" "long" = Ok dd_long
    /\ dd_short !! "train"%string = Some short
    /\ dd_long !! "train"%string = Some long
    /\ example_train ++ example_val ++ example_test
       ≡ₚ add_doc_len <$> List.filter (long_enough 3)
                            (map short_columns short ++ map long_columns long).
Proof.
  apply (load_reddit_complete nat rotating rotating_spec example_hub 0.5 0.25 3
           0%nat 3%nat).
  vm_compute. reflexivity.
Defined.

(** In every row that [load_reddit] returns the summary is shorter than the
    document (line 30), and [doc_len] is above [min_len]. *)
Theorem load_reddit_summary_shorter (rng : Type)
    (permutation : nat -> rng -> list nat * rng)
    (load_dataset : string -> string -> result (gmap string (list raw_row)))
    (train_split val_split : float) (min_len : Z) (g g' : rng)
    (tr va te : list instance_len) :
  load_reddit rng permutation load_dataset train_split val_split min_len g
  = Ok ((tr, va, te), g') ->
  Forall (fun x : instance_len =>
            str_len (summary x) < str_len (document x) /\ min_len < doc_len x)
         (tr ++ va ++ te).
Proof.
  intros H. apply load_reddit_Ok in H.
  destruct H as (dataset & tr0 & va0 & te0 & Hf & Htr & Hva & Hte & -> & -> & ->).
  assert (Hall : Forall (fun x : instance_len =>
                           str_len (summary x) < str_len (document x)
                           /\ min_len < doc_len x)
                   (add_doc_len <$> dataset)).
  { apply Forall_fmap. eapply Forall_impl; [exact Hf|].
    intros x Hx. simpl. unfold long_enough in Hx.
    rewrite !andb_true_iff in Hx. lia. }
  rewrite !Forall_app.
  repeat split; apply sort_Forall; eapply subseteq_Forall; eassumption.
Qed.

Lemma load_reddit_summary_shorter_witness :
  Forall (fun x : instance_len =>
            str_len (summary x) < str_len (document x) /\ 3 < doc_len x)
         (example_train ++ example_val ++ example_test).
Proof.
  apply (load_reddit_summary_shorter nat rotating example_hub 0.5 0.25 3 0%nat 3%nat).
  vm_compute. reflexivity.
Defined.

(** When the hub answers both requests and one of the answers has no
    ["train"] split, [load_reddit] raises [KeyError] for that key (line 24)
    before it filters or splits anything. *)
Theorem load_reddit_missing_train (rng : Type)
    (permutation : nat -> rng -> list nat * rng)
    (load_dataset : string -> string -> result (gmap string (list raw_row)))
    (train_split val_split : float) (min_len : Z) (g : rng)
    (dd_short dd_long : gmap string (list raw_row)) :
  load_dataset "reddit_tifu" "short" = Ok dd_short ->
  load_dataset "reddit_tifu" "long" = Ok dd_long ->
  dd_short !! "train"%string = None \/ dd_long !! "train"%string = None ->
  load_reddit rng permutation load_dataset train_split val_split min_len g
  = Raise (KeyError "train").
Proof.
  intros Hs Hl Hnone. unfold load_reddit, bind, lift. rewrite Hs, Hl.
  unfold getitem. rewrite !lookup_fmap.
  destruct (dd_short !! "train"%string) as [short|]; simpl; [|reflexivity].
  destruct Hnone as [Hn|Hn]; [discriminate|]. by rewrite Hn.
Qed.

Lemma load_reddit_missing_train_witness :
  load_reddit nat rotating
    (fun _ name => if (name =? "short")%string
                   then Ok {[ "train"%string := [example_row "today i forgot" "oops"] ]}
                   else Ok {[ "test"%string := [example_row "today i overslept" "late"] ]})
    0.5 0.25 3 0%nat
  = Raise (KeyError "train").
Proof.
  apply (load_reddit_missing_train nat rotating _ 0.5 0.25 3 0%nat
           {[ "train"%string := [example_row "today i forgot" "oops"] ]}
           {[ "test"%string := [example_row "today i overslept" "late"] ]}).
  - reflexivity.
  - reflexivity.
  - right. reflexivity.
Defined.

(** ** More on [init_schedule] *)

(** What [init_schedule] does with its arguments: the scheduler it returns
    is built on the optimizer it was given; [emb_dim] matters for ["noam"]
    only; and for ["constant"], ["none"], ["cosineannealing"] and
    ["invsqrt"] the loader, the learning rate and the number of epochs do
    not matter either. *)
Theorem init_schedule_uses {optimizer B : Type} `{Optimizer optimizer}
    (float_pow : float -> float -> result float) (opt : optimizer) (sched : string)
    (train_loader : list B) (lr : float) (epochs emb_dim : Z) :
  (forall s, init_schedule float_pow opt sched train_loader lr epochs emb_dim = Ok s ->
             scheduler_optimizer s = opt)
  /\ (sched <> "noam"%string ->
      forall emb_dim',
        init_schedule float_pow opt sched train_loader lr epochs emb_dim'
        = init_schedule float_pow opt sched train_loader lr epochs emb_dim)
  /\ (sched ∈ fixed_schedules ->
      forall (train_loader' : list B) lr' epochs' emb_dim',
        init_schedule float_pow opt sched train_loader' lr' epochs' emb_dim'
        = init_schedule float_pow opt sched train_loader lr epochs emb_dim).
Proof.
  split; [|split].
  - intros s. unfold init_schedule.
    destruct (_ || _).
    { unfold LambdaLR_init. simpl. intros E. inversion E. reflexivity. }
    destruct (sched =? "cosineannealing")%string.
    { unfold CosineAnnealingWarmRestarts_init. simpl. intros E. inversion E. reflexivity. }
    destruct (sched =? "invsqrt")%string.
    { unfold LambdaLR_init. simpl. intros E. inversion E. reflexivity. }
    destruct (sched =? "linear")%string.
    { unfold LinearLR_init. destruct (_ || _); [discriminate|].
      destruct (_ || _); [discriminate|]. intros E. inversion E. reflexivity. }
    destruct (sched =? "onecycle")%string.
    { unfold OneCycleLR_init. simpl. destruct (_ <=? 0); [discriminate|].
      destruct (float_of_int _); simpl; [|discriminate].
      destruct (momentum_or_betas opt); simpl; [|discriminate].
      intros E. inversion E. reflexivity. }
    destruct (sched =? "noam")%string; [|discriminate].
    destruct (float_of_int (len train_loader)); simpl; [|discriminate].
    destruct (float_of_int epochs); simpl; [|discriminate].
    unfold LambdaLR_init. destruct (lambda_noam _ _ _ _); simpl; [|discriminate].
    intros E. inversion E. reflexivity.
  - intros Hn emb_dim'. unfold init_schedule.
    repeat (destruct (_ =? _)%string; simpl; [reflexivity|]).
    destruct (String.eqb_spec sched "noam"); [contradiction | reflexivity].
  - unfold fixed_schedules. rewrite !elem_of_cons, elem_of_nil.
    intros [->|[->|[->|[->|[]]]]]; reflexivity.
Qed.

(** ** What [split_data] can raise *)

Lemma bind_Raise {rng A B} (c : M rng A) (k : A -> M rng B) (g : rng) (e : exn) :
  bind c k g = Raise e <->
  c g = Raise e \/ exists a g1, c g = Ok (a, g1) /\ k a g1 = Raise e.
Proof.
  unfold bind. destruct (c g) as [[a g1]|e']; split.
  - intros H. right. exists a, g1. auto.
  - intros [H|(a' & g' & H & H')]; [discriminate | congruence].
  - intros H. left. congruence.
  - intros [H|(a' & g' & H & _)]; [congruence | discriminate].
Qed.

Lemma lift_Raise {rng A} (r : result A) (g : rng) (e : exn) :
  lift r g = Raise e <-> r = Raise e.
Proof. unfold lift. destruct r; split; congruence. Qed.

Lemma py_ceil_raises (x : float) (e : exn) : py_ceil x = Raise e -> split_error e.
Proof.
  unfold py_ceil, split_error. destruct (Prim2SF x); intros H; inversion H; eauto.
Qed.

(** Indices below the length are all there to select. *)
Lemma select_returns {A} (indices : list nat) (ds : list A) :
  Forall (fun i => (i < length ds)%nat) indices -> returns (select indices ds).
Proof.
  intros H. unfold select.
  induction H as [|i idx Hi _ [l IH]]; simpl; [by eexists|].
  destruct (lookup_lt_is_Some_2 ds i Hi) as [x ->]. simpl. rewrite IH. by eexists.
Qed.

Section SplitErrors.

Variable rng : Type.
Variable permutation : nat -> rng -> list nat * rng.
Hypothesis permutation_spec : forall n g, fst (permutation n g) ≡ₚ seq 0 n.

Lemma permutation_in_range (n : nat) (g : rng) :
  Forall (fun i => (i < n)%nat) (fst (permutation n g)).
Proof.
  rewrite permutation_spec. apply Forall_seq. lia.
Qed.

Lemma shuffle_returns {A} (ds : list A) (g : rng) :
  exists l g', shuffle rng permutation ds g = Ok (l, g').
Proof.
  unfold shuffle. destruct (length ds =? 0)%nat; [by eexists _, _|].
  unfold bind, draw_permutation, lift.
  pose proof (permutation_in_range (length ds) g) as Hr.
  destruct (permutation (length ds) g) as [perm g1]. simpl in Hr.
  destruct (select_returns perm ds Hr) as [l ->]. by eexists _, _.
Qed.

Lemma train_test_split_raises {A} (ds : list A) (test_size : float) (g : rng) (e : exn) :
  train_test_split rng permutation ds test_size g = Raise e -> split_error e.
Proof.
  unfold train_test_split. destruct (length ds =? 0)%nat; [discriminate|].
  destruct (_ || _).
  { intros H. apply lift_Raise in H. inversion H. left. eauto. }
  intros H. apply bind_Raise in H. destruct H as [H|(n & g1 & Hn & H)].
  { apply lift_Raise, float_of_int_raises in H. subst e. right. left. eauto. }
  apply bind_Raise in H. destruct H as [H|(n_test & g2 & Ht & H)].
  { apply lift_Raise in H. by eapply py_ceil_raises. }
  destruct (_ <? _).
  { apply lift_Raise in H. inversion H. left. eauto. }
  destruct (_ =? _).
  { apply lift_Raise in H. inversion H. left. eauto. }
  exfalso. unfold bind, draw_permutation, lift, ret in H.
  pose proof (permutation_in_range (length ds) g2) as Hr.
  destruct (permutation (length ds) g2) as [perm g3]. simpl in Hr.
  destruct (select_returns (py_slice n_test (n_test + (len ds - n_test)) perm) ds)
    as [l1 Hl1].
  { eapply subseteq_Forall; [apply py_slice_subseteq | exact Hr]. }
  destruct (select_returns (py_slice 0 n_test perm) ds) as [l2 Hl2].
  { eapply subseteq_Forall; [apply py_slice_subseteq | exact Hr]. }
  rewrite Hl1, Hl2 in H. discriminate.
Qed.

Lemma split_data_raises {A} (ds : list A) (train_split val_split : float)
    (g : rng) (e : exn) :
  split_data rng permutation ds train_split val_split g = Raise e -> split_error e.
Proof.
  unfold split_data, flatten_indices. intros H.
  apply bind_Raise in H. destruct H as [H|(ds1 & g1 & _ & H)].
  { destruct (shuffle_returns ds g) as (l & g' & Hs). congruence. }
  apply bind_Raise in H. destruct H as [H|(d & g2 & _ & H)].
  { by eapply train_test_split_raises. }
  apply bind_Raise in H. destruct H as [H|(q & g3 & _ & H)].
  { apply lift_Raise in H. unfold py_div in H.
    destruct (is_zero _); inversion H. right. right. eauto. }
  apply bind_Raise in H. destruct H as [H|(d2 & g4 & _ & H)].
  { by eapply train_test_split_raises. }
  discriminate.
Qed.

End SplitErrors.

(** With a generator that returns permutations, [split_data] never fails on
    an index: whatever it raises is a [ValueError] (a ratio or a split size
    the library refuses), an [OverflowError] or a [ZeroDivisionError]
    ([train_split] of one, line 53). *)
Theorem split_data_errors (rng : Type) (permutation : nat -> rng -> list nat * rng)
    (permutation_spec : forall n g, fst (permutation n g) ≡ₚ seq 0 n)
    {A} (ds : list A) (train_split val_split : float) (g : rng) (e : exn) :
  split_data rng permutation ds train_split val_split g = Raise e ->
  split_error e /\ forall msg, e <> IndexError msg.
Proof.
  intros H. apply split_data_raises in H; [|assumption].
  split; [assumption|].
  intros msg ->. destruct H as [[m H]|[[m H]|[m H]]]; discriminate.
Qed.

Lemma split_data_errors_witness :
  split_error (ValueError "the resulting train set will be empty")
  /\ forall msg, ValueError "the resulting train set will be empty" <> IndexError msg.
Proof.
  apply (split_data_errors nat rotating rotating_spec [10] 0.5 0.25 0%nat).
  vm_compute. reflexivity.
Defined.
